(** * A shallow embedding of the simple MCP tutorial server

    The development follows the three modules of [simple_mcp_server]:
    [tools.py] (the tool catalog and the argument validator), [handlers.py]
    (the five tool handlers) and [server.py] (the request handlers
    registered by [SimpleMCPServer._setup_handlers]).

    Python values, exceptions, [float], [str], [json.dumps] and [datetime]
    are modelled first, as CPython 3.11 has them; the program's functions
    are then written over that model, with the same names.

    The modules [handlers] and [server] hold the functions without their
    log statements and take every [int] to be printable.  CPython refuses
    to print an [int] of more than 4300 digits, and the log statements
    print the arguments and the request count: the module [full] puts the
    log statements and that limit back, and is the program as it runs.
    What the log statements write (console, log files) is left out. *)

From Stdlib Require Import ZArith String Ascii List Lia.
From Stdlib Require Import Floats.SpecFloat DecimalString.
From stdpp Require Import gmap strings.

Set Warnings "-register-all".
Local Open Scope Z_scope.

(** ** Text helpers *)

Definition nl : string := String "010"%char EmptyString.
Definition dquote : ascii := "034"%char.
Definition squote : ascii := "039"%char.
Definition backslash : ascii := "092"%char.

Definition chars (s : string) : list ascii := list_ascii_of_string s.
Definition text_of (l : list ascii) : string := string_of_list_ascii l.
Definition code (c : ascii) : Z := Z.of_nat (nat_of_ascii c).

(** Decimal digits of an integer, as [str(int)] prints them.  CPython
    refuses beyond 4300 digits: see [int_printable] and the module [full]. *)
Definition digits (n : Z) : string := NilZero.string_of_int (Z.to_int n).

Fixpoint zeros (n : nat) : string :=
  match n with O => EmptyString | S n' => String "0" (zeros n') end.

(** [pad w n]: the non-negative [n] in at least [w] digits ([%0wd]). *)
Definition pad (w : nat) (n : Z) : string :=
  let d := digits n in
  zeros (w - String.length d) +:+ d.

Definition hex_digit (n : Z) : ascii :=
  ascii_of_nat (Z.to_nat (if n <? 10 then 48 + n else 87 + n)).

(** [hex w n]: [n] in exactly [w] lower-case hexadecimal digits. *)
Fixpoint hex (w : nat) (n : Z) : string :=
  match w with
  | O => EmptyString
  | S w' => hex w' (n / 16) +:+ String (hex_digit (n mod 16)) EmptyString
  end.

(** [needle in hay] on strings. *)
Fixpoint contains (needle hay : string) : bool :=
  String.prefix needle hay ||
  match hay with
  | EmptyString => false
  | String _ hay' => contains needle hay'
  end.

Definition join (sep : string) (l : list string) : string :=
  match l with
  | [] => EmptyString
  | x :: l' => fold_left (fun acc y => acc +:+ sep +:+ y) l' x
  end.

(** Code points of a UTF-8 byte string. *)
Fixpoint utf8_decode (l : list ascii) : list Z :=
  let cont c := code c - 128 in
  match l with
  | [] => []
  | c :: r =>
      let n := code c in
      if n <? 192 then n :: utf8_decode r
      else
        match r with
        | c1 :: r1 =>
            if n <? 224 then ((n - 192) * 64 + cont c1) :: utf8_decode r1
            else
              match r1 with
              | c2 :: r2 =>
                  if n <? 240
                  then ((n - 224) * 4096 + cont c1 * 64 + cont c2) :: utf8_decode r2
                  else
                    match r2 with
                    | c3 :: r3 =>
                        ((n - 240) * 262144 + cont c1 * 4096 + cont c2 * 64 + cont c3)
                          :: utf8_decode r3
                    | [] => [n]
                    end
              | [] => [n]
              end
        | [] => [n]
        end
  end.

(** The UTF-8 bytes of a code point. *)
Definition utf8_encode (cp : Z) : string :=
  let byte n := ascii_of_nat (Z.to_nat n) in
  if cp <? 128 then text_of [ byte cp ]
  else if cp <? 2048 then text_of [ byte (192 + cp / 64); byte (128 + cp mod 64) ]
  else if cp <? 65536
  then text_of [ byte (224 + cp / 4096); byte (128 + cp / 64 mod 64);
                 byte (128 + cp mod 64) ]
  else text_of [ byte (240 + cp / 262144); byte (128 + cp / 4096 mod 64);
                 byte (128 + cp / 64 mod 64); byte (128 + cp mod 64) ].

(** First code points of the blocks of ten decimal digits above ASCII
    (Unicode 14.0, as in CPython 3.11). *)
Definition decimal_blocks : list Z :=
  [ 1632; 1776; 1984; 2406; 2534; 2662; 2790; 2918; 3046; 3174; 3302; 3430;
    3558; 3664; 3792; 3872; 4160; 4240; 6112; 6160; 6470; 6608; 6784; 6800;
    6992; 7088; 7232; 7248; 42528; 43216; 43264; 43472; 43504; 43600; 44016;
    65296; 66720; 68912; 69734; 69872; 69942; 70096; 70384; 70736; 70864;
    71248; 71360; 71472; 71904; 72016; 72784; 73040; 73120; 92768; 92864;
    93008; 120782; 120792; 120802; 120812; 120822; 123200; 123632; 125264;
    130032 ].

(** White space above ASCII, as [str.isspace] has it. *)
Definition unicode_spaces : list Z :=
  [ 133; 160; 5760; 8192; 8193; 8194; 8195; 8196; 8197; 8198; 8199; 8200;
    8201; 8202; 8232; 8233; 8239; 8287; 12288 ].

(** The ranges of code points above ASCII that [str.isprintable] refuses
    (Unicode 14.0). *)
Definition unprintable_ranges : list (Z * Z) :=
  [ (128, 160); (173, 173); (888, 889); (896, 899); (907, 907); (909, 909);
    (930, 930); (1328, 1328); (1367, 1368); (1419, 1420); (1424, 1424);
    (1480, 1487); (1515, 1518); (1525, 1541); (1564, 1564); (1757, 1757);
    (1806, 1807); (1867, 1868); (1970, 1983); (2043, 2044); (2094, 2095);
    (2111, 2111); (2140, 2141); (2143, 2143); (2155, 2159); (2191, 2199);
    (2274, 2274); (2436, 2436); (2445, 2446); (2449, 2450); (2473, 2473);
    (2481, 2481); (2483, 2485); (2490, 2491); (2501, 2502); (2505, 2506);
    (2511, 2518); (2520, 2523); (2526, 2526); (2532, 2533); (2559, 2560);
    (2564, 2564); (2571, 2574); (2577, 2578); (2601, 2601); (2609, 2609);
    (2612, 2612); (2615, 2615); (2618, 2619); (2621, 2621); (2627, 2630);
    (2633, 2634); (2638, 2640); (2642, 2648); (2653, 2653); (2655, 2661);
    (2679, 2688); (2692, 2692); (2702, 2702); (2706, 2706); (2729, 2729);
    (2737, 2737); (2740, 2740); (2746, 2747); (2758, 2758); (2762, 2762);
    (2766, 2767); (2769, 2783); (2788, 2789); (2802, 2808); (2816, 2816);
    (2820, 2820); (2829, 2830); (2833, 2834); (2857, 2857); (2865, 2865);
    (2868, 2868); (2874, 2875); (2885, 2886); (2889, 2890); (2894, 2900);
    (2904, 2907); (2910, 2910); (2916, 2917); (2936, 2945); (2948, 2948);
    (2955, 2957); (2961, 2961); (2966, 2968); (2971, 2971); (2973, 2973);
    (2976, 2978); (2981, 2983); (2987, 2989); (3002, 3005); (3011, 3013);
    (3017, 3017); (3022, 3023); (3025, 3030); (3032, 3045); (3067, 3071);
    (3085, 3085); (3089, 3089); (3113, 3113); (3130, 3131); (3141, 3141);
    (3145, 3145); (3150, 3156); (3159, 3159); (3163, 3164); (3166, 3167);
    (3172, 3173); (3184, 3190); (3213, 3213); (3217, 3217); (3241, 3241);
    (3252, 3252); (3258, 3259); (3269, 3269); (3273, 3273); (3278, 3284);
    (3287, 3292); (3295, 3295); (3300, 3301); (3312, 3312); (3315, 3327);
    (3341, 3341); (3345, 3345); (3397, 3397); (3401, 3401); (3408, 3411);
    (3428, 3429); (3456, 3456); (3460, 3460); (3479, 3481); (3506, 3506);
    (3516, 3516); (3518, 3519); (3527, 3529); (3531, 3534); (3541, 3541);
    (3543, 3543); (3552, 3557); (3568, 3569); (3573, 3584); (3643, 3646);
    (3676, 3712); (3715, 3715); (3717, 3717); (3723, 3723); (3748, 3748);
    (3750, 3750); (3774, 3775); (3781, 3781); (3783, 3783); (3790, 3791);
    (3802, 3803); (3808, 3839); (3912, 3912); (3949, 3952); (3992, 3992);
    (4029, 4029); (4045, 4045); (4059, 4095); (4294, 4294); (4296, 4300);
    (4302, 4303); (4681, 4681); (4686, 4687); (4695, 4695); (4697, 4697);
    (4702, 4703); (4745, 4745); (4750, 4751); (4785, 4785); (4790, 4791);
    (4799, 4799); (4801, 4801); (4806, 4807); (4823, 4823); (4881, 4881);
    (4886, 4887); (4955, 4956); (4989, 4991); (5018, 5023); (5110, 5111);
    (5118, 5119); (5760, 5760); (5789, 5791); (5881, 5887); (5910, 5918);
    (5943, 5951); (5972, 5983); (5997, 5997); (6001, 6001); (6004, 6015);
    (6110, 6111); (6122, 6127); (6138, 6143); (6158, 6158); (6170, 6175);
    (6265, 6271); (6315, 6319); (6390, 6399); (6431, 6431); (6444, 6447);
    (6460, 6463); (6465, 6467); (6510, 6511); (6517, 6527); (6572, 6575);
    (6602, 6607); (6619, 6621); (6684, 6685); (6751, 6751); (6781, 6782);
    (6794, 6799); (6810, 6815); (6830, 6831); (6863, 6911); (6989, 6991);
    (7039, 7039); (7156, 7163); (7224, 7226); (7242, 7244); (7305, 7311);
    (7355, 7356); (7368, 7375); (7419, 7423); (7958, 7959); (7966, 7967);
    (8006, 8007); (8014, 8015); (8024, 8024); (8026, 8026); (8028, 8028);
    (8030, 8030); (8062, 8063); (8117, 8117); (8133, 8133); (8148, 8149);
    (8156, 8156); (8176, 8177); (8181, 8181); (8191, 8207); (8232, 8239);
    (8287, 8303); (8306, 8307); (8335, 8335); (8349, 8351); (8385, 8399);
    (8433, 8447); (8588, 8591); (9255, 9279); (9291, 9311); (11124, 11125);
    (11158, 11158); (11508, 11512); (11558, 11558); (11560, 11564);
    (11566, 11567); (11624, 11630); (11633, 11646); (11671, 11679);
    (11687, 11687); (11695, 11695); (11703, 11703); (11711, 11711);
    (11719, 11719); (11727, 11727); (11735, 11735); (11743, 11743);
    (11870, 11903); (11930, 11930); (12020, 12031); (12246, 12271);
    (12284, 12288); (12352, 12352); (12439, 12440); (12544, 12548);
    (12592, 12592); (12687, 12687); (12772, 12783); (12831, 12831);
    (42125, 42127); (42183, 42191); (42540, 42559); (42744, 42751);
    (42955, 42959); (42962, 42962); (42964, 42964); (42970, 42993);
    (43053, 43055); (43066, 43071); (43128, 43135); (43206, 43213);
    (43226, 43231); (43348, 43358); (43389, 43391); (43470, 43470);
    (43482, 43485); (43519, 43519); (43575, 43583); (43598, 43599);
    (43610, 43611); (43715, 43738); (43767, 43776); (43783, 43784);
    (43791, 43792); (43799, 43807); (43815, 43815); (43823, 43823);
    (43884, 43887); (44014, 44015); (44026, 44031); (55204, 55215);
    (55239, 55242); (55292, 63743); (64110, 64111); (64218, 64255);
    (64263, 64274); (64280, 64284); (64311, 64311); (64317, 64317);
    (64319, 64319); (64322, 64322); (64325, 64325); (64451, 64466);
    (64912, 64913); (64968, 64974); (64976, 65007); (65050, 65055);
    (65107, 65107); (65127, 65127); (65132, 65135); (65141, 65141);
    (65277, 65280); (65471, 65473); (65480, 65481); (65488, 65489);
    (65496, 65497); (65501, 65503); (65511, 65511); (65519, 65531);
    (65534, 65535); (65548, 65548); (65575, 65575); (65595, 65595);
    (65598, 65598); (65614, 65615); (65630, 65663); (65787, 65791);
    (65795, 65798); (65844, 65846); (65935, 65935); (65949, 65951);
    (65953, 65999); (66046, 66175); (66205, 66207); (66257, 66271);
    (66300, 66303); (66340, 66348); (66379, 66383); (66427, 66431);
    (66462, 66462); (66500, 66503); (66518, 66559); (66718, 66719);
    (66730, 66735); (66772, 66775); (66812, 66815); (66856, 66863);
    (66916, 66926); (66939, 66939); (66955, 66955); (66963, 66963);
    (66966, 66966); (66978, 66978); (66994, 66994); (67002, 67002);
    (67005, 67071); (67383, 67391); (67414, 67423); (67432, 67455);
    (67462, 67462); (67505, 67505); (67515, 67583); (67590, 67591);
    (67593, 67593); (67638, 67638); (67641, 67643); (67645, 67646);
    (67670, 67670); (67743, 67750); (67760, 67807); (67827, 67827);
    (67830, 67834); (67868, 67870); (67898, 67902); (67904, 67967);
    (68024, 68027); (68048, 68049); (68100, 68100); (68103, 68107);
    (68116, 68116); (68120, 68120); (68150, 68151); (68155, 68158);
    (68169, 68175); (68185, 68191); (68256, 68287); (68327, 68330);
    (68343, 68351); (68406, 68408); (68438, 68439); (68467, 68471);
    (68498, 68504); (68509, 68520); (68528, 68607); (68681, 68735);
    (68787, 68799); (68851, 68857); (68904, 68911); (68922, 69215);
    (69247, 69247); (69290, 69290); (69294, 69295); (69298, 69375);
    (69416, 69423); (69466, 69487); (69514, 69551); (69580, 69599);
    (69623, 69631); (69710, 69713); (69750, 69758); (69821, 69821);
    (69827, 69839); (69865, 69871); (69882, 69887); (69941, 69941);
    (69960, 69967); (70007, 70015); (70112, 70112); (70133, 70143);
    (70162, 70162); (70207, 70271); (70279, 70279); (70281, 70281);
    (70286, 70286); (70302, 70302); (70314, 70319); (70379, 70383);
    (70394, 70399); (70404, 70404); (70413, 70414); (70417, 70418);
    (70441, 70441); (70449, 70449); (70452, 70452); (70458, 70458);
    (70469, 70470); (70473, 70474); (70478, 70479); (70481, 70486);
    (70488, 70492); (70500, 70501); (70509, 70511); (70517, 70655);
    (70748, 70748); (70754, 70783); (70856, 70863); (70874, 71039);
    (71094, 71095); (71134, 71167); (71237, 71247); (71258, 71263);
    (71277, 71295); (71354, 71359); (71370, 71423); (71451, 71452);
    (71468, 71471); (71495, 71679); (71740, 71839); (71923, 71934);
    (71943, 71944); (71946, 71947); (71956, 71956); (71959, 71959);
    (71990, 71990); (71993, 71994); (72007, 72015); (72026, 72095);
    (72104, 72105); (72152, 72153); (72165, 72191); (72264, 72271);
    (72355, 72367); (72441, 72703); (72713, 72713); (72759, 72759);
    (72774, 72783); (72813, 72815); (72848, 72849); (72872, 72872);
    (72887, 72959); (72967, 72967); (72970, 72970); (73015, 73017);
    (73019, 73019); (73022, 73022); (73032, 73039); (73050, 73055);
    (73062, 73062); (73065, 73065); (73103, 73103); (73106, 73106);
    (73113, 73119); (73130, 73439); (73465, 73647); (73649, 73663);
    (73714, 73726); (74650, 74751); (74863, 74863); (74869, 74879);
    (75076, 77711); (77811, 77823); (78895, 82943); (83527, 92159);
    (92729, 92735); (92767, 92767); (92778, 92781); (92863, 92863);
    (92874, 92879); (92910, 92911); (92918, 92927); (92998, 93007);
    (93018, 93018); (93026, 93026); (93048, 93052); (93072, 93759);
    (93851, 93951); (94027, 94030); (94088, 94094); (94112, 94175);
    (94181, 94191); (94194, 94207); (100344, 100351); (101590, 101631);
    (101641, 110575); (110580, 110580); (110588, 110588); (110591, 110591);
    (110883, 110927); (110931, 110947); (110952, 110959); (111356, 113663);
    (113771, 113775); (113789, 113791); (113801, 113807); (113818, 113819);
    (113824, 118527); (118574, 118575); (118599, 118607); (118724, 118783);
    (119030, 119039); (119079, 119080); (119155, 119162); (119275, 119295);
    (119366, 119519); (119540, 119551); (119639, 119647); (119673, 119807);
    (119893, 119893); (119965, 119965); (119968, 119969); (119971, 119972);
    (119975, 119976); (119981, 119981); (119994, 119994); (119996, 119996);
    (120004, 120004); (120070, 120070); (120075, 120076); (120085, 120085);
    (120093, 120093); (120122, 120122); (120127, 120127); (120133, 120133);
    (120135, 120137); (120145, 120145); (120486, 120487); (120780, 120781);
    (121484, 121498); (121504, 121504); (121520, 122623); (122655, 122879);
    (122887, 122887); (122905, 122906); (122914, 122914); (122917, 122917);
    (122923, 123135); (123181, 123183); (123198, 123199); (123210, 123213);
    (123216, 123535); (123567, 123583); (123642, 123646); (123648, 124895);
    (124903, 124903); (124908, 124908); (124911, 124911); (124927, 124927);
    (125125, 125126); (125143, 125183); (125260, 125263); (125274, 125277);
    (125280, 126064); (126133, 126208); (126270, 126463); (126468, 126468);
    (126496, 126496); (126499, 126499); (126501, 126502); (126504, 126504);
    (126515, 126515); (126520, 126520); (126522, 126522); (126524, 126529);
    (126531, 126534); (126536, 126536); (126538, 126538); (126540, 126540);
    (126544, 126544); (126547, 126547); (126549, 126550); (126552, 126552);
    (126554, 126554); (126556, 126556); (126558, 126558); (126560, 126560);
    (126563, 126563); (126565, 126566); (126571, 126571); (126579, 126579);
    (126584, 126584); (126589, 126589); (126591, 126591); (126602, 126602);
    (126620, 126624); (126628, 126628); (126634, 126634); (126652, 126703);
    (126706, 126975); (127020, 127023); (127124, 127135); (127151, 127152);
    (127168, 127168); (127184, 127184); (127222, 127231); (127406, 127461);
    (127491, 127503); (127548, 127551); (127561, 127567); (127570, 127583);
    (127590, 127743); (128728, 128732); (128749, 128751); (128765, 128767);
    (128884, 128895); (128985, 128991); (129004, 129007); (129009, 129023);
    (129036, 129039); (129096, 129103); (129114, 129119); (129160, 129167);
    (129198, 129199); (129202, 129279); (129620, 129631); (129646, 129647);
    (129653, 129655); (129661, 129663); (129671, 129679); (129709, 129711);
    (129723, 129727); (129734, 129743); (129754, 129759); (129768, 129775);
    (129783, 129791); (129939, 129939); (129995, 130031); (130042, 131071);
    (173792, 173823); (177977, 177983); (178206, 178207); (183970, 183983);
    (191457, 194559); (195102, 196607); (201547, 917759); (918000, 1114111) ].

(** ** Binary64 floating point (Python's [float]) *)

Module F64.
Definition prec : Z := 53.
Definition emax : Z := 1024.

(** The quotient [n / d], rounded to the nearest double, ties to even. *)
Definition of_ratio (n : Z) (d : positive) : spec_float :=
  let round (s : bool) (a : positive) :=
    let '(q, e, l) := SFdiv_core_binary prec emax (Zpos a) 0 (Zpos d) 0 in
    binary_round_aux prec emax s q e l in
  match n with
  | Z0 => S754_zero false
  | Zpos a => round false a
  | Zneg a => round true a
  end.

Definition of_Z (n : Z) : spec_float := of_ratio n 1.
Definition add : spec_float -> spec_float -> spec_float := SFadd prec emax.
Definition div : spec_float -> spec_float -> spec_float := SFdiv prec emax.
Definition ltb : spec_float -> spec_float -> bool := SFltb.

Definition is_zero (x : spec_float) : bool :=
  match x with S754_zero _ => true | _ => false end.

(** The least magnitude that rounds beyond the largest finite double. *)
Definition overflow_threshold : Z := Eval cbv in 2 ^ 1024 - 2 ^ 970.

(** [m * 10^x] with sign [neg], as a decimal literal denotes it. *)
Definition of_decimal (neg : bool) (m x : Z) : spec_float :=
  if m =? 0 then S754_zero neg
  else
    let m' := if neg then - m else m in
    if 0 <=? x then of_ratio (m' * 10 ^ x) 1
    else of_ratio m' (Z.to_pos (10 ^ (- x))).

Definition same (x y : spec_float) : bool :=
  match x, y with
  | S754_finite s1 m1 e1, S754_finite s2 m2 e2 =>
      Bool.eqb s1 s2 && Pos.eqb m1 m2 && Z.eqb e1 e2
  | _, _ => false
  end.

(** *** [repr]: the shortest decimal string that reads back as the float *)

Fixpoint strip_zeros (l : list ascii) : list ascii :=
  match l with
  | "0"%char :: l' => strip_zeros l'
  | _ => l
  end.

Definition strip_trailing_zeros (s : string) : string :=
  text_of (rev (strip_zeros (rev (chars s)))).

(** The exponent [p] with [10^(p-1) <= num/den < 10^p], searched upwards
    from an underestimate obtained from the binary lengths. *)
Fixpoint decpt_from (fuel : nat) (num den p : Z) : Z :=
  match fuel with
  | O => p
  | S fuel' =>
      let below := if 0 <=? p then num <? den * 10 ^ p
                   else num * 10 ^ (- p) <? den in
      if below then p else decpt_from fuel' num den (p + 1)
  end.

Definition decpt_of (num den : Z) : Z :=
  let b := Z.log2 num - Z.log2 den in
  decpt_from 8 num den ((b - 1) * 30103 / 100000 - 1).

(** The [k]-digit decimal next to [num/den] that reads back as [x], if
    there is one: the integer [c] of the decimal [c * 10^(p-k)]. *)
Definition candidate (x : spec_float) (num den p k : Z) : option Z :=
  let s := k - p in
  let n' := if 0 <=? s then num * 10 ^ s else num in
  let d' := if 0 <=? s then den else den * 10 ^ (- s) in
  let lo := n' / d' in
  let hi := lo + 1 in
  let oklo := same (of_decimal false lo (- s)) x in
  let okhi := same (of_decimal false hi (- s)) x in
  match oklo, okhi with
  | true, false => Some lo
  | false, true => Some hi
  | true, true =>
      match 2 * (n' mod d') ?= d' with
      | Lt => Some lo
      | Gt => Some hi
      | Eq => Some (if Z.even lo then lo else hi)
      end
  | false, false => None
  end.

Fixpoint shortest (fuel : nat) (x : spec_float) (num den p k : Z) : Z * Z :=
  match candidate x num den p k with
  | Some c => (c, k - p)
  | None =>
      match fuel with
      | O => (0, 0)
      | S fuel' => shortest fuel' x num den p (k + 1)
      end
  end.

(** Layout of the digits [ds] with the decimal point after [decpt] of
    them: scientific notation outside [-4 < decpt <= 16]. *)
Definition format_short (ds : string) (decpt : Z) : string :=
  let nd := Z.of_nat (String.length ds) in
  if (decpt <=? -4) || (16 <? decpt) then
    let ex := decpt - 1 in
    let mant := match ds with
                | String c (String _ _ as rest) => String c (String "." rest)
                | _ => ds
                end in
    mant +:+ "e" +:+ (if ex <? 0 then "-" else "+") +:+ pad 2 (Z.abs ex)
  else if decpt <=? 0 then
    "0." +:+ zeros (Z.to_nat (- decpt)) +:+ ds
  else if nd <=? decpt then
    ds +:+ zeros (Z.to_nat (decpt - nd)) +:+ ".0"
  else
    substring 0 (Z.to_nat decpt) ds +:+ "." +:+
    substring (Z.to_nat decpt) (Z.to_nat (nd - decpt)) ds.

Definition repr (x : spec_float) : string :=
  match x with
  | S754_nan => "nan"
  | S754_infinity s => if s then "-inf" else "inf"
  | S754_zero s => if s then "-0.0" else "0.0"
  | S754_finite s m e =>
      let num := if 0 <=? e then Zpos m * 2 ^ e else Zpos m in
      let den := if 0 <=? e then 1 else 2 ^ (- e) in
      let p := decpt_of num den in
      let '(c, sc) := shortest 17 (S754_finite false m e) num den p 1 in
      let ds := digits c in
      let decpt := Z.of_nat (String.length ds) - sc in
      (if s then "-" else "") +:+ format_short (strip_trailing_zeros ds) decpt
  end.

(** *** Reading a float from text, as [float(str)] does *)

Definition is_digit (c : ascii) : bool := (48 <=? code c) && (code c <=? 57).

Definition is_space (c : ascii) : bool :=
  let n := code c in (n =? 32) || ((9 <=? n) && (n <=? 13)).

Definition lower (c : ascii) : ascii :=
  let n := code c in
  if (65 <=? n) && (n <=? 90) then ascii_of_nat (Z.to_nat (n + 32)) else c.

Fixpoint lstrip (l : list ascii) : list ascii :=
  match l with
  | c :: l' => if is_space c then lstrip l' else l
  | [] => []
  end.

Definition strip (l : list ascii) : list ascii :=
  rev (lstrip (rev (lstrip l))).

(** An underscore is accepted between two digits only, and dropped. *)
Fixpoint drop_underscores (prev : option ascii) (l : list ascii)
  : option (list ascii) :=
  match l with
  | [] => Some []
  | c :: l' =>
      if Ascii.eqb c "_" then
        match prev, l' with
        | Some p, n :: _ =>
            if is_digit p && is_digit n then drop_underscores (Some c) l'
            else None
        | _, _ => None
        end
      else option_map (cons c) (drop_underscores (Some c) l')
  end.

(** Leading digits of [l]: their value on top of [acc], how many, the rest. *)
Fixpoint take_digits (l : list ascii) (acc n : Z) : Z * Z * list ascii :=
  match l with
  | c :: l' =>
      if is_digit c then take_digits l' (10 * acc + (code c - 48)) (n + 1)
      else (acc, n, l)
  | [] => (acc, n, [])
  end.

Definition take_sign (l : list ascii) : bool * list ascii :=
  match l with
  | c :: l' =>
      if Ascii.eqb c "-" then (true, l')
      else if Ascii.eqb c "+" then (false, l')
      else (false, l)
  | [] => (false, [])
  end.

(** Unsigned decimal literal: mantissa and power of ten. *)
Definition parse_decimal (l : list ascii) : option (Z * Z) :=
  let '(ip, ni, r1) := take_digits l 0 0 in
  let '(m, nf, r2) :=
    match r1 with
    | c :: r => if Ascii.eqb c "." then take_digits r ip 0 else (ip, 0, r1)
    | [] => (ip, 0, r1)
    end in
  if ni + nf =? 0 then None
  else
    match r2 with
    | [] => Some (m, - nf)
    | c :: r3 =>
        if Ascii.eqb (lower c) "e" then
          let '(eneg, r4) := take_sign r3 in
          let '(ex, ne, r5) := take_digits r4 0 0 in
          match r5 with
          | [] => if ne =? 0 then None
                  else Some (m, (if eneg then - ex else ex) - nf)
          | _ :: _ => None
          end
        else None
    end.

(** The digit value of a decimal digit above ASCII. *)
Definition unicode_decimal (cp : Z) : option Z :=
  match List.find (fun s => (s <=? cp) && (cp <? s + 10)) decimal_blocks with
  | Some s => Some (cp - s)
  | None => None
  end.

(** The text as [float] reads it: ASCII is kept, any other white space
    becomes a space and any other decimal digit its ASCII digit; another
    character makes the text unreadable. *)
Fixpoint to_ascii (l : list Z) : option (list ascii) :=
  match l with
  | [] => Some []
  | cp :: l' =>
      let c :=
        if cp <? 127 then Some (ascii_of_nat (Z.to_nat cp))
        else if existsb (Z.eqb cp) unicode_spaces then Some " "%char
        else option_map (fun d => ascii_of_nat (Z.to_nat (48 + d)))
                        (unicode_decimal cp) in
      match c, to_ascii l' with
      | Some c, Some r => Some (c :: r)
      | _, _ => None
      end
  end.

Definition parse (s : string) : option spec_float :=
  match to_ascii (utf8_decode (chars s)) with
  | None => None
  | Some ascii_text =>
      match drop_underscores None ascii_text with
      | None => None
      | Some l =>
          let '(neg, body) := take_sign (strip l) in
          let word := text_of (map lower body) in
          if String.eqb word "inf" || String.eqb word "infinity"
          then Some (S754_infinity neg)
          else if String.eqb word "nan" then Some S754_nan
          else
            match parse_decimal body with
            | Some (m, x) => Some (of_decimal neg m x)
            | None => None
            end
      end
  end.
End F64.

(** ** Python values

    The values a JSON document decodes to.  A [str] is kept as its UTF-8
    bytes; a nested [dict] keeps its insertion order. *)

Inductive Value : Type :=
  | VNone
  | VBool (b : bool)
  | VInt (n : Z)
  | VFloat (x : spec_float)
  | VStr (s : string)
  | VList (l : list Value)
  | VDict (d : list (string * Value)).

(** [str.isprintable] of one code point. *)
Definition is_printable (cp : Z) : bool :=
  if cp <? 128 then (32 <=? cp) && (cp <? 127)
  else negb (existsb (fun '(lo, hi) => (lo <=? cp) && (cp <=? hi))
                     unprintable_ranges).

(** [repr] of a [str]: one code point inside the quotes [q]. *)
Definition repr_char (q : ascii) (cp : Z) : string :=
  if (cp =? code q) || (cp =? 92)
  then String backslash (String (ascii_of_nat (Z.to_nat cp)) EmptyString)
  else if cp =? 9 then "\t"
  else if cp =? 10 then "\n"
  else if cp =? 13 then "\r"
  else if is_printable cp then utf8_encode cp
  else if cp <? 256 then "\x" +:+ hex 2 cp
  else if cp <? 65536 then "\u" +:+ hex 4 cp
  else "\U" +:+ hex 8 cp.

Definition str_repr (s : string) : string :=
  let has c := existsb (Ascii.eqb c) (chars s) in
  let q := if has squote && negb (has dquote) then dquote else squote in
  String q (String.concat "" (map (repr_char q) (utf8_decode (chars s))))
    +:+ String q EmptyString.

Fixpoint py_repr (v : Value) : string :=
  match v with
  | VNone => "None"
  | VBool b => if b then "True" else "False"
  | VInt n => digits n
  | VFloat x => F64.repr x
  | VStr s => str_repr s
  | VList l => "[" +:+ join ", " (map py_repr l) +:+ "]"
  | VDict d =>
      "{" +:+ join ", " (map (fun '(k, x) => str_repr k +:+ ": " +:+ py_repr x) d) +:+ "}"
  end.

(** [str(v)], which is also what an f-string field [{v}] inserts. *)
Definition py_str (v : Value) : string :=
  match v with
  | VStr s => s
  | _ => py_repr v
  end.

(** Truth value, as tested by [if v:]. *)
Definition py_bool (v : Value) : bool :=
  match v with
  | VNone => false
  | VBool b => b
  | VInt n => negb (n =? 0)
  | VFloat x => negb (F64.is_zero x)
  | VStr s => negb (String.eqb s "")
  | VList l => match l with [] => false | _ => true end
  | VDict d => match d with [] => false | _ => true end
  end.

(** [v == s] and [v != s] for a string literal [s]. *)
Definition eq_str (v : Value) (s : string) : bool :=
  match v with
  | VStr s' => String.eqb s' s
  | _ => false
  end.

(** [isinstance] against the classes the validator names.  [bool] is a
    subclass of [int] in Python. *)
Definition isinstance_str (v : Value) : bool :=
  match v with VStr _ => true | _ => false end.

Definition isinstance_int_float (v : Value) : bool :=
  match v with VInt _ | VFloat _ | VBool _ => true | _ => false end.

Definition isinstance_bool (v : Value) : bool :=
  match v with VBool _ => true | _ => false end.

Definition type_name (v : Value) : string :=
  match v with
  | VNone => "NoneType"
  | VBool _ => "bool"
  | VInt _ => "int"
  | VFloat _ => "float"
  | VStr _ => "str"
  | VList _ => "list"
  | VDict _ => "dict"
  end.

(** ** Exceptions *)

Inductive ExcClass : Type :=
  | ValueError
  | TypeError
  | OverflowError
  | ZeroDivisionError.

(** An exception instance; [exc_msg] is what [str(e)] returns. *)
Record PyException : Type := Exc { exc_class : ExcClass; exc_msg : string }.

(** The outcome of a call: a returned value or a raised exception. *)
Inductive result (A : Type) : Type :=
  | Return (a : A)
  | Raise (e : PyException).
Arguments Return {A} a.
Arguments Raise {A} e.

#[global] Instance result_ret : MRet result := @Return.
#[global] Instance result_bind : MBind result :=
  fun A B f m => match m with Return a => f a | Raise e => Raise e end.


(** [try: body except Exception as e: handler]. *)
Definition try_except {A} (body : result A) (handler : PyException -> result A)
  : result A :=
  match body with
  | Return a => Return a
  | Raise e => handler e
  end.

Definition raises {A} (r : result A) : bool :=
  match r with Raise _ => true | Return _ => false end.

(** ** Numeric built-ins *)

(** [float(v)]. *)
Definition py_float (v : Value) : result spec_float :=
  match v with
  | VFloat x => Return x
  | VBool b => Return (F64.of_Z (if b then 1 else 0))
  | VInt n =>
      if Z.abs n <? F64.overflow_threshold then Return (F64.of_Z n)
      else Raise (Exc OverflowError "int too large to convert to float")
  | VStr s =>
      match F64.parse s with
      | Some x => Return x
      | None =>
          Raise (Exc ValueError ("could not convert string to float: " +:+ str_repr s))
      end
  | _ =>
      Raise (Exc TypeError
               ("float() argument must be a string or a real number, not '"
                  +:+ type_name v +:+ "'"))
  end.

(** A number that is an [int] or a [float], as [max(1, x)] returns. *)
Inductive number : Type :=
  | NInt (n : Z)
  | NFloat (x : spec_float).

(** [max(1, x)] for a float [x]: the first argument is kept unless the
    second compares greater. *)
Definition max_1 (x : spec_float) : number :=
  if F64.ltb (F64.of_Z 1) x then NFloat x else NInt 1.


(** [n / d] for an [int] n: true division. *)
Definition int_truediv (n : Z) (d : number) : result spec_float :=
  match d with
  | NInt k =>
      if k =? 0 then Raise (Exc ZeroDivisionError "division by zero")
      else if Z.abs n <? F64.overflow_threshold * Z.abs k
      then Return (F64.of_ratio (n * Z.sgn k) (Z.to_pos (Z.abs k)))
      else Raise (Exc OverflowError "integer division result too large for a float")
  | NFloat x =>
      a ← py_float (VInt n);
      if F64.is_zero x then Raise (Exc ZeroDivisionError "float division by zero")
      else Return (F64.div a x)
  end.

(** ** [json.dumps(obj, indent=2)] *)

Inductive json : Type :=
  | JNull
  | JBool (b : bool)
  | JInt (n : Z)
  | JFloat (x : spec_float)
  | JStr (s : string)
  | JArr (l : list json)
  | JObj (l : list (string * json)).

(** One code point inside a JSON string, with [ensure_ascii] in force. *)
Definition json_escape (cp : Z) : string :=
  if cp =? 34 then String backslash (String dquote EmptyString)
  else if cp =? 92 then String backslash (String backslash EmptyString)
  else if cp =? 10 then "\n"
  else if cp =? 13 then "\r"
  else if cp =? 9 then "\t"
  else if cp =? 8 then "\b"
  else if cp =? 12 then "\f"
  else if (32 <=? cp) && (cp <=? 126) then String (ascii_of_nat (Z.to_nat cp)) EmptyString
  else if cp <? 65536 then "\u" +:+ hex 4 cp
  else
    let v := cp - 65536 in
    "\u" +:+ hex 4 (55296 + v / 1024) +:+ "\u" +:+ hex 4 (56320 + v mod 1024).

Definition json_string (s : string) : string :=
  String dquote (String.concat "" (map json_escape (utf8_decode (chars s))))
    +:+ String dquote EmptyString.

Definition json_float (x : spec_float) : string :=
  match x with
  | S754_nan => "NaN"
  | S754_infinity s => if s then "-Infinity" else "Infinity"
  | _ => F64.repr x
  end.

Fixpoint spaces (n : nat) : string :=
  match n with O => EmptyString | S n' => String " " (spaces n') end.

(** [dumps level j]: the text of [j] nested [level] deep, two spaces a level. *)
Fixpoint dumps (level : nat) (j : json) : string :=
  let inner := nl +:+ spaces (2 * S level) in
  let outer := nl +:+ spaces (2 * level) in
  match j with
  | JNull => "null"
  | JBool b => if b then "true" else "false"
  | JInt n => digits n
  | JFloat x => json_float x
  | JStr s => json_string s
  | JArr [] => "[]"
  | JArr l =>
      "[" +:+ inner +:+ join ("," +:+ inner) (map (dumps (S level)) l) +:+ outer +:+ "]"
  | JObj [] => "{}"
  | JObj l =>
      "{" +:+ inner
        +:+ join ("," +:+ inner)
              (map (fun '(k, x) => json_string k +:+ ": " +:+ dumps (S level) x) l)
        +:+ outer +:+ "}"
  end.

Definition json_dumps_indent2 (j : json) : string := dumps 0 j.

(** ** [datetime]

    A naive local date and time, as [datetime.now()] returns it.
    [epoch_second] is the POSIX time of that second, which the host derives
    from its time zone; only [timestamp()] uses it. *)

Record datetime : Type := {
  year : Z;
  month : Z;
  day : Z;
  hour : Z;
  minute : Z;
  second : Z;
  microsecond : Z;
  epoch_second : Z
}.

Definition isoformat (t : datetime) : string :=
  pad 4 (year t) +:+ "-" +:+ pad 2 (month t) +:+ "-" +:+ pad 2 (day t) +:+ "T"
    +:+ pad 2 (hour t) +:+ ":" +:+ pad 2 (minute t) +:+ ":" +:+ pad 2 (second t)
    +:+ (if microsecond t =? 0 then "" else "." +:+ pad 6 (microsecond t)).

(** [strftime("%Y-%m-%d %H:%M:%S")], for a year of four digits (for an
    earlier year the C library decides whether it is padded). *)
Definition strftime_ymd_hms (t : datetime) : string :=
  pad 4 (year t) +:+ "-" +:+ pad 2 (month t) +:+ "-" +:+ pad 2 (day t) +:+ " "
    +:+ pad 2 (hour t) +:+ ":" +:+ pad 2 (minute t) +:+ ":" +:+ pad 2 (second t).

Definition timestamp (t : datetime) : spec_float :=
  F64.add (F64.of_Z (epoch_second t))
          (F64.div (F64.of_Z (microsecond t)) (F64.of_Z 1000000)).

Definition is_leap (y : Z) : bool :=
  (y mod 4 =? 0) && (negb (y mod 100 =? 0) || (y mod 400 =? 0)).

Definition days_before_year (y : Z) : Z :=
  let y' := y - 1 in y' * 365 + y' / 4 - y' / 100 + y' / 400.

Definition days_before_month (y m : Z) : Z :=
  nth (Z.to_nat (m - 1)) [0; 31; 59; 90; 120; 151; 181; 212; 243; 273; 304; 334] 0
    + (if (2 <? m) && is_leap y then 1 else 0).

Definition toordinal (t : datetime) : Z :=
  days_before_year (year t) + days_before_month (year t) (month t) + day t.

(** [t1 - t2], a [timedelta], in microseconds. *)
Definition sub_datetime (t1 t2 : datetime) : Z :=
  (((toordinal t1 - toordinal t2) * 86400
    + (hour t1 - hour t2) * 3600 + (minute t1 - minute t2) * 60
    + (second t1 - second t2)) * 1000000)
  + (microsecond t1 - microsecond t2).

(** [timedelta.total_seconds()]: the microseconds divided by [10**6]. *)
Definition total_seconds (us : Z) : spec_float := F64.of_ratio us 1000000.

(** What a tool handler reads from the host: [now i] is the result of the
    [i]-th call of [datetime.now()] it makes (the time stamps of the log
    entries are left out with the log), [version_info] the interpreter's
    [sys.version_info] (major, minor, micro), three small numbers. *)
Record Host : Type := {
  now : nat -> datetime;
  version_info : Z * Z * Z
}.

(** A [dict] of call arguments, keyed by parameter name. *)
Abbreviation ArgumentMap := (gmap string Value).

(** [k in d]. *)
Definition has_key (d : ArgumentMap) (k : string) : bool :=
  match d !! k with Some _ => true | None => false end.

(** [d.get(k, dflt)]. *)
Definition dict_get (d : ArgumentMap) (k : string) (dflt : Value) : Value :=
  default dflt (d !! k).

(** * tools.py *)

Module tools.

(** One entry of a schema's ["properties"]. *)
Record Property : Type := {
  prop_type : string;
  prop_description : string;
  prop_enum : option (list string);
  prop_default : option Value
}.

(** The [inputSchema] dictionary of a tool. *)
Record Schema : Type := {
  schema_type : string;
  properties : list (string * Property);
  required : list string
}.

(** [mcp.types.Tool]. *)
Record Tool : Type := {
  name : string;
  description : string;
  inputSchema : Schema
}.

Definition prop (ty descr : string) : Property :=
  {| prop_type := ty; prop_description := descr;
     prop_enum := None; prop_default := None |}.

Definition prop_with_default (ty descr : string) (d : Value) : Property :=
  {| prop_type := ty; prop_description := descr;
     prop_enum := None; prop_default := Some d |}.

Definition object_schema (props : list (string * Property)) (req : list string)
  : Schema :=
  {| schema_type := "object"; properties := props; required := req |}.

Definition get_all_tools : list Tool :=
  [ {| name := "hello_world";
       description := "A simple greeting tool that returns a hello message";
       inputSchema := object_schema
         [ ("name", prop_with_default "string" "Name to greet (optional)"
                      (VStr "World")) ]
         [] |};
    {| name := "echo";
       description := "Echo back the input message with optional prefix";
       inputSchema := object_schema
         [ ("message", prop "string" "Message to echo back");
           ("prefix", prop_with_default "string"
                        "Optional prefix to add to the message" (VStr "Echo: ")) ]
         [ "message" ] |};
    {| name := "get_time";
       description := "Get current time in various formats";
       inputSchema := object_schema
         [ ("format",
            {| prop_type := "string";
               prop_description := "Time format: 'iso', 'readable', or 'timestamp'";
               prop_enum := Some [ "iso"; "readable"; "timestamp" ];
               prop_default := Some (VStr "readable") |});
           ("timezone", prop_with_default "string"
                          "Timezone (e.g., 'UTC', 'US/Eastern')" (VStr "local")) ]
         [] |};
    {| name := "math_add";
       description := "Add two numbers together";
       inputSchema := object_schema
         [ ("a", prop "number" "First number");
           ("b", prop "number" "Second number") ]
         [ "a"; "b" ] |};
    {| name := "debug_info";
       description := "Get debug information about the MCP server";
       inputSchema := object_schema
         [ ("include_tools", prop_with_default "boolean"
                               "Include tool information in response" (VBool true));
           ("include_stats", prop_with_default "boolean"
                               "Include server statistics" (VBool true)) ]
         [] |} ].

Definition get_tool_by_name (nm : string) : result Tool :=
  match find (fun tool => String.eqb (name tool) nm) get_all_tools with
  | Some tool => Return tool
  | None => Raise (Exc ValueError ("Tool '" +:+ nm +:+ "' not found"))
  end.

(** [properties[field]] when [field in properties]. *)
Definition lookup_property (props : list (string * Property)) (field : string)
  : option Property :=
  snd <$> find (fun kv => String.eqb (fst kv) field) props.

(** One round of the loop over [arguments.items()]: [false] when the
    round executes [return False]. *)
Definition field_type_ok (props : list (string * Property))
    (item : string * Value) : bool :=
  let '(field, value) := item in
  match lookup_property props field with
  | Some p =>
      let expected_type := prop_type p in
      if String.eqb expected_type "string" && negb (isinstance_str value)
      then false
      else if String.eqb expected_type "number" && negb (isinstance_int_float value)
      then false
      else if String.eqb expected_type "boolean" && negb (isinstance_bool value)
      then false
      else true
  | None => true
  end.

Definition validate_tool_arguments (tool_name : string) (arguments : ArgumentMap)
  : result bool :=
  try_except
    (tool ← get_tool_by_name tool_name;
     let schema := inputSchema tool in
     let required_fields := required schema in
     if negb (forallb (has_key arguments) required_fields) then Return false
     else
       if negb (forallb (field_type_ok (properties schema)) (map_to_list arguments))
       then Return false
       else Return true)
    (fun _ => Return false).

End tools.

(** * server.py: the server object *)

(** The attributes of [SimpleMCPServer] that the program reads or writes. *)
Record SimpleMCPServer : Type := {
  server_name : string;
  start_time : datetime;
  request_count : Z
}.

(** * handlers.py

    Each handler from the statement after its debug log line on, every
    [int] taken to be printable; the module [full] has the whole
    functions. *)

Module handlers.

Definition handle_hello_world (host : Host) (arguments : ArgumentMap)
  : result string :=
  let name := dict_get arguments "name" (VStr "World") in
  let greeting := "Hello, " +:+ py_str name +:+ "! 👋" in
  let timestamp := isoformat (now host 0) in
  let response := greeting +:+ nl +:+ nl +:+ "Generated at: " +:+ timestamp in
  Return response.

Definition handle_echo (arguments : ArgumentMap) : result string :=
  match arguments !! "message" with
  | None => Raise (Exc ValueError "Missing required parameter: message")
  | Some message =>
      let prefix := dict_get arguments "prefix" (VStr "Echo: ") in
      let response := py_str prefix +:+ py_str message in
      Return response
  end.

Definition handle_get_time (host : Host) (arguments : ArgumentMap)
  : result string :=
  let time_format := dict_get arguments "format" (VStr "readable") in
  let timezone := dict_get arguments "timezone" (VStr "local") in
  let now := now host 0 in
  time_str ←
    (if eq_str time_format "iso" then Return (isoformat now)
     else if eq_str time_format "timestamp" then Return (F64.repr (timestamp now))
     else if eq_str time_format "readable" then Return (strftime_ymd_hms now)
     else Raise (Exc ValueError ("Unknown time format: " +:+ py_str time_format)));
  let response := "Current time: " +:+ time_str in
  let response :=
    if negb (eq_str timezone "local")
    then response +:+ " (requested timezone: " +:+ py_str timezone +:+ ")"
    else response in
  Return response.

(** The clause [except (ValueError, TypeError) as e] of [handle_math_add]:
    other exceptions pass through. *)
Definition invalid_number (e : PyException) : result (spec_float * spec_float) :=
  match exc_class e with
  | ValueError | TypeError =>
      Raise (Exc ValueError ("Invalid number format: " +:+ exc_msg e))
  | _ => Raise e
  end.

Definition handle_math_add (arguments : ArgumentMap) : result string :=
  match arguments !! "a", arguments !! "b" with
  | Some va, Some vb =>
      '(a, b) ← try_except
                  (a ← py_float va; b ← py_float vb; Return (a, b))
                  invalid_number;
      let result := F64.add a b in
      let response :=
        F64.repr a +:+ " + " +:+ F64.repr b +:+ " = " +:+ F64.repr result in
      Return response
  | _, _ => Raise (Exc ValueError "Missing required parameters: a and b")
  end.

Definition tool_summary (tool : tools.Tool) : json :=
  JObj [ ("name", JStr (tools.name tool));
         ("description", JStr (tools.description tool));
         ("required_params",
          JArr (map JStr (tools.required (tools.inputSchema tool)))) ].

(** [debug_info["uptime_seconds"]]. *)
Definition uptime_seconds (host : Host) (server : SimpleMCPServer) : spec_float :=
  total_seconds (sub_datetime (now host 0) (start_time server)).

(** The divisor [max(1, debug_info["uptime_seconds"] / 60)]. *)
Definition elapsed_minutes (host : Host) (server : SimpleMCPServer) : number :=
  max_1 (F64.div (uptime_seconds host server) (F64.of_Z 60)).

(** The dictionary [debug_info] as it stands when it is serialised. *)
Definition build_debug_info (host : Host) (arguments : ArgumentMap)
    (server : SimpleMCPServer) : result (list (string * json)) :=
  let include_tools := dict_get arguments "include_tools" (VBool true) in
  let include_stats := dict_get arguments "include_stats" (VBool true) in
  let '(major, minor, micro) := version_info host in
  let debug_info :=
    [ ("server_name", JStr (server_name server));
      ("start_time", JStr (isoformat (start_time server)));
      ("uptime_seconds", JFloat (uptime_seconds host server));
      ("request_count", JInt (request_count server));
      ("python_version",
       JStr (digits major +:+ "." +:+ digits minor +:+ "." +:+ digits micro));
      ("timestamp", JStr (isoformat (now host 1))) ] in
  let tools_entry :=
    if py_bool include_tools
    then [ ("tools", JArr (map tool_summary tools.get_all_tools)) ]
    else [] in
  let debug_info := debug_info ++ tools_entry in
  if py_bool include_stats then
    let tools_available :=
      if py_bool include_tools then Z.of_nat (length tools.get_all_tools) else 0 in
    avg ← int_truediv (request_count server) (elapsed_minutes host server);
    Return (debug_info ++
              [ ("statistics",
                 JObj [ ("tools_available", JInt tools_available);
                        ("avg_requests_per_minute", JFloat avg) ]) ])
  else Return debug_info.

Definition handle_debug_info (host : Host) (arguments : ArgumentMap)
    (server : SimpleMCPServer) : result string :=
  debug_info ← build_debug_info host arguments server;
  let response :=
    "🔍 MCP Server Debug Information" +:+ nl +:+ nl
      +:+ json_dumps_indent2 (JObj debug_info) in
  Return response.

(** [validate_required_params]: returns [None] or raises. *)
Definition validate_required_params (arguments : ArgumentMap)
    (required : list string) : result unit :=
  let missing := List.filter (fun param => negb (has_key arguments param)) required in
  match missing with
  | [] => Return tt
  | _ :: _ =>
      Raise (Exc ValueError ("Missing required parameters: " +:+ join ", " missing))
  end.

End handlers.

(** * server.py: the request handlers *)

Module server.

(** [mcp.types.TextContent]. *)
Record TextContent : Type := { type : string; text : string }.

(** [SimpleMCPServer.__init__]; the default [name] is ["simple-mcp-debug"]. *)
Definition init (host : Host) (name : string) : SimpleMCPServer :=
  {| server_name := name; start_time := now host 0; request_count := 0 |}.

(** [self.request_count += 1]. *)
Definition count_request (self : SimpleMCPServer) : SimpleMCPServer :=
  {| server_name := server_name self;
     start_time := start_time self;
     request_count := request_count self + 1 |}.

Definition handle_list_tools (self : SimpleMCPServer)
  : result (list tools.Tool) * SimpleMCPServer :=
  let self := count_request self in
  (try_except (Return tools.get_all_tools) (fun e => Raise e), self).

(** The tool handlers that [handle_call_tool] can route to. *)
Inductive Handler : Type :=
  | HelloWorld
  | Echo
  | GetTime
  | MathAdd
  | DebugInfo.

(** The [if]/[elif] chain on [name]; [None] is its [else] branch. *)
Definition route (name : string) : option Handler :=
  if String.eqb name "hello_world" then Some HelloWorld
  else if String.eqb name "echo" then Some Echo
  else if String.eqb name "get_time" then Some GetTime
  else if String.eqb name "math_add" then Some MathAdd
  else if String.eqb name "debug_info" then Some DebugInfo
  else None.

Definition invoke (h : Handler) (host : Host) (arguments : ArgumentMap)
    (self : SimpleMCPServer) : result string :=
  match h with
  | HelloWorld => handlers.handle_hello_world host arguments
  | Echo => handlers.handle_echo arguments
  | GetTime => handlers.handle_get_time host arguments
  | MathAdd => handlers.handle_math_add arguments
  | DebugInfo => handlers.handle_debug_info host arguments self
  end.

Definition text_content (s : string) : TextContent :=
  {| type := "text"; text := s |}.

(** [handle_call_tool] without its request log: the increment of line
    106 and the [try] statement of lines 116 to 159.  The whole function
    is [full.handle_call_tool]. *)
Definition handle_call_tool (host : Host) (name : string)
    (arguments : ArgumentMap) (self : SimpleMCPServer)
  : result (list TextContent) * SimpleMCPServer :=
  let self := count_request self in
  (try_except
     (result ←
        match route name with
        | Some h => invoke h host arguments self
        | None =>
            let error_msg := "Unknown tool: " +:+ name in
            Return error_msg
        end;
      let response := [ text_content result ] in
      Return response)
     (fun e =>
        let error_msg :=
          "Error executing tool " +:+ name +:+ ": " +:+ exc_msg e in
        Return [ text_content error_msg ]),
   self).

(** Prompts are not modelled beyond their name: the server has none. *)
Definition handle_list_prompts (self : SimpleMCPServer)
  : result (list string) * SimpleMCPServer :=
  let self := count_request self in
  (Return [], self).

Definition handle_get_prompt (name : string) (arguments : ArgumentMap)
    (self : SimpleMCPServer) : result string * SimpleMCPServer :=
  let self := count_request self in
  (Raise (Exc ValueError ("No prompt named " +:+ name)), self).

(** An inbound request, with what it reads from the host. *)
Inductive Request : Type :=
  | ListTools
  | CallTool (host : Host) (name : string) (arguments : ArgumentMap)
  | ListPrompts
  | GetPrompt (name : string) (arguments : ArgumentMap).

(** The server after serving one request. *)
Definition serve (req : Request) (self : SimpleMCPServer) : SimpleMCPServer :=
  match req with
  | ListTools => snd (handle_list_tools self)
  | CallTool host name arguments => snd (handle_call_tool host name arguments self)
  | ListPrompts => snd (handle_list_prompts self)
  | GetPrompt name arguments => snd (handle_get_prompt name arguments self)
  end.

(** The server after serving a sequence of requests, oldest first. *)
Definition serve_all (reqs : list Request) (self : SimpleMCPServer)
  : SimpleMCPServer :=
  fold_left (fun s req => serve req s) reqs self.

End server.

(** * The program with its log statements

    CPython 3.11 refuses to convert an [int] of more than 4300 digits to
    text: [str], [repr], an f-string field and [json.dumps] raise
    [ValueError] on it.  The log statements of the program print the
    arguments and the request count, so they raise on such an [int]. *)

Definition int_max_str_digits : Z := 4300.

(** [str(n)] succeeds. *)
Definition int_printable (n : Z) : bool := Z.abs n <? 10 ^ int_max_str_digits.

Definition int_limit_error : PyException :=
  Exc ValueError
    "Exceeds the limit (4300 digits) for integer string conversion; use sys.set_int_max_str_digits() to increase the limit".

(** [str(v)] and [repr(v)] succeed: no [int] inside [v] is too long. *)
Fixpoint printable (v : Value) : bool :=
  match v with
  | VInt n => int_printable n
  | VList l => forallb printable l
  | VDict d => forallb (fun '(_, x) => printable x) d
  | _ => true
  end.

(** [repr(arguments)] and [json.dumps(arguments)] succeed. *)
Definition loggable (arguments : ArgumentMap) : bool :=
  forallb (fun '(_, v) => printable v) (map_to_list arguments).

Fixpoint json_printable (j : json) : bool :=
  match j with
  | JInt n => int_printable n
  | JArr l => forallb json_printable l
  | JObj l => forallb (fun '(_, x) => json_printable x) l
  | _ => true
  end.

(** [json.dumps(obj, indent=2)], which may raise. *)
Definition json_dumps (j : json) : result string :=
  if json_printable j then Return (json_dumps_indent2 j)
  else Raise int_limit_error.

Module full.

(** [logger.debug(f"Arguments: {arguments}")], the statement that opens
    every handler: the f-string is built whatever the log level. *)
Definition log_arguments (arguments : ArgumentMap) : result unit :=
  if loggable arguments then Return tt else Raise int_limit_error.

(** The handlers of handlers.py.  Once the arguments have been printed,
    the later f-strings over them cannot fail. *)
Definition handle_hello_world (host : Host) (arguments : ArgumentMap)
  : result string :=
  _ ← log_arguments arguments;
  handlers.handle_hello_world host arguments.

Definition handle_echo (arguments : ArgumentMap) : result string :=
  _ ← log_arguments arguments;
  handlers.handle_echo arguments.

Definition handle_get_time (host : Host) (arguments : ArgumentMap)
  : result string :=
  _ ← log_arguments arguments;
  handlers.handle_get_time host arguments.

Definition handle_math_add (arguments : ArgumentMap) : result string :=
  _ ← log_arguments arguments;
  handlers.handle_math_add arguments.

Definition handle_debug_info (host : Host) (arguments : ArgumentMap)
    (server : SimpleMCPServer) : result string :=
  _ ← log_arguments arguments;
  debug_info ← handlers.build_debug_info host arguments server;
  let response := "🔍 MCP Server Debug Information" +:+ nl +:+ nl in
  text ← json_dumps (JObj debug_info);
  Return (response +:+ text).

Definition invoke (h : server.Handler) (host : Host) (arguments : ArgumentMap)
    (self : SimpleMCPServer) : result string :=
  match h with
  | server.HelloWorld => handle_hello_world host arguments
  | server.Echo => handle_echo arguments
  | server.GetTime => handle_get_time host arguments
  | server.MathAdd => handle_math_add arguments
  | server.DebugInfo => handle_debug_info host arguments self
  end.

(** Lines 107 to 114 of server.py, which precede the [try]: the f-string
    over [self.request_count], then [json.dumps(arguments, indent=2)] in
    the log line and again in [log_mcp_message]. *)
Definition log_request (self : SimpleMCPServer) (arguments : ArgumentMap)
  : result unit :=
  if int_printable (request_count self) then
    if loggable arguments then Return tt else Raise int_limit_error
  else Raise int_limit_error.

(** [handle_call_tool], lines 106 to 159. *)
Definition handle_call_tool (host : Host) (name : string)
    (arguments : ArgumentMap) (self : SimpleMCPServer)
  : result (list server.TextContent) * SimpleMCPServer :=
  let self := server.count_request self in
  (_ ← log_request self arguments;
   try_except
     (result ←
        match server.route name with
        | Some h => invoke h host arguments self
        | None =>
            let error_msg := "Unknown tool: " +:+ name in
            Return error_msg
        end;
      let response := [ server.text_content result ] in
      Return response)
     (fun e =>
        let error_msg :=
          "Error executing tool " +:+ name +:+ ": " +:+ exc_msg e in
        Return [ server.text_content error_msg ]),
   self).

End full.

(** * Vocabulary of the statements *)

(** The names in the catalog, in catalog order. *)
Definition tool_names : list string := map tools.name tools.get_all_tools.

(** The text block the dispatcher returns when a handler raised [e]. *)
Definition error_text (name : string) (e : PyException) : string :=
  "Error executing tool " +:+ name +:+ ": " +:+ exc_msg e.

(** The text of a call's single content block, read off the outcome of the
    routed handler. *)
Definition outcome_text (name : string) (routed : option (result string))
  : string :=
  match routed with
  | Some (Return text) => text
  | Some (Raise e) => error_text name e
  | None => "Unknown tool: " +:+ name
  end.

(** [math_add] is given no usable pair of numbers: ["a"] or ["b"] is
    missing, or [float] raises on one of them. *)
Definition math_add_rejects (arguments : ArgumentMap) : bool :=
  match arguments !! "a", arguments !! "b" with
  | Some va, Some vb => raises (py_float va) || raises (py_float vb)
  | _, _ => true
  end.

(** The formats [get_time] knows. *)
Definition known_time_format (fmt : Value) : bool :=
  eq_str fmt "iso" || eq_str fmt "readable" || eq_str fmt "timestamp".



(** [d[k]] in a dictionary kept as its list of items. *)
Definition item (d : list (string * json)) (k : string) : option json :=
  snd <$> find (fun kv => String.eqb (fst kv) k) d.

(** Sample data for the closed examples. *)
Definition sample_start : datetime :=
  {| year := 2024; month := 3; day := 1; hour := 9; minute := 5; second := 7;
     microsecond := 0; epoch_second := 1709283907 |}.

Definition sample_time : datetime :=
  {| year := 2024; month := 3; day := 1; hour := 9; minute := 7; second := 37;
     microsecond := 250000; epoch_second := 1709284057 |}.

Definition sample_host : Host :=
  {| now := fun _ => sample_time; version_info := (3, 11, 2) |}.

Definition sample_server : SimpleMCPServer :=
  {| server_name := "simple-mcp-debug"; start_time := sample_start;
     request_count := 7 |}.

(** What the validator's [if]/[elif] chain accepts for a declared type:
    a ["number"] may be an [int], a [float] or a [bool]; a type it does
    not name accepts every value. *)
Definition type_accepts (declared : string) (value : Value) : bool :=
  if String.eqb declared "string" then isinstance_str value
  else if String.eqb declared "number" then isinstance_int_float value
  else if String.eqb declared "boolean" then isinstance_bool value
  else true.

(** The first line of the text of [debug_info]. *)
Definition debug_header : string := "🔍 MCP Server Debug Information" +:+ nl +:+ nl.

(** An [int] of 4301 digits, the shortest that [str] refuses. *)
Definition long_int : Z := 10 ^ int_max_str_digits.

(** [float(v)] raises [OverflowError]: [v] is an [int] beyond the range of
    a [float]. *)
Definition float_overflows (v : Value) : bool :=
  match v with
  | VInt n => F64.overflow_threshold <=? Z.abs n
  | _ => false
  end.

(** The first of ["a"] and ["b"] that [float] rejects is an [int] beyond
    the range of a [float]. *)
Definition math_add_overflows (arguments : ArgumentMap) : bool :=
  match arguments !! "a", arguments !! "b" with
  | Some va, Some vb =>
      float_overflows va || negb (raises (py_float va)) && float_overflows vb
  | _, _ => false
  end.



(** The sample server with another request count. *)
Definition server_counting (n : Z) : SimpleMCPServer :=
  {| server_name := "simple-mcp-debug"; start_time := sample_start;
     request_count := n |}.

(** * tests/test_server.py and tests/test_simple.py

    The test functions, without their printing.  A test returns [False]
    at the first case that fails, so its result is the conjunction of its
    cases.  [boot] is the host at [MockMCPServer.initialize]; [host i] is
    the host during the [i]-th handler call of a test. *)

Module tests.

(** [test_tool_discovery]: the [assert] and any exception end in
    [return False]. *)
Definition test_tool_discovery : bool :=
  forallb
    (fun tool =>
       match tools.get_tool_by_name (tools.name tool) with
       | Return retrieved_tool =>
           String.eqb (tools.name retrieved_tool) (tools.name tool)
       | Raise _ => false
       end)
    tools.get_all_tools.

(** The [test_cases] of [test_tool_validation]: tool, args, should_pass. *)
Definition validation_cases : list (string * ArgumentMap * bool) :=
  [ ("hello_world", ∅, true);
    ("hello_world", {[ "name" := VStr "Test" ]}, true);
    ("echo", {[ "message" := VStr "Hello" ]}, true);
    ("echo", ∅, false);
    ("math_add", {[ "a" := VInt 5; "b" := VInt 3 ]}, true);
    ("math_add", {[ "a" := VInt 5 ]}, false) ].

Definition test_tool_validation : result bool :=
  foldr
    (fun '(tool_name, args, should_pass) rest =>
       result ← tools.validate_tool_arguments tool_name args;
       if Bool.eqb result should_pass then rest else Return false)
    (Return true) validation_cases.

(** [MockMCPServer()] after [initialize()]. *)
Definition mock_server (boot : Host) : SimpleMCPServer :=
  {| server_name := "simple-mcp-debug"; start_time := now boot 0;
     request_count := 0 |}.

(** The [test_cases] of [test_tool_handlers]: the handler applied to its
    args, and [expected_contains]. *)
Definition handler_cases (boot : Host) (host : nat -> Host)
  : list (result string * string) :=
  [ (handlers.handle_hello_world (host 0%nat) {[ "name" := VStr "TestUser" ]},
     "Hello, TestUser");
    (handlers.handle_echo
       {[ "message" := VStr "Test message"; "prefix" := VStr "Echo: " ]},
     "Echo: Test message");
    (handlers.handle_get_time (host 2%nat) {[ "format" := VStr "readable" ]},
     "Current time:");
    (handlers.handle_math_add {[ "a" := VInt 10; "b" := VInt 5 ]},
     "10 + 5 = 15");
    (handlers.handle_debug_info (host 4%nat) {[ "include_tools" := VBool true ]}
       (mock_server boot),
     "Debug Information") ].

Definition test_tool_handlers (boot : Host) (host : nat -> Host) : bool :=
  forallb
    (fun '(outcome, expected_contains) =>
       match outcome with
       | Return result => contains expected_contains result
       | Raise _ => false
       end)
    (handler_cases boot host).

(** The [error_test_cases] of [test_error_handling]. *)
Definition error_cases (host : nat -> Host) : list (result string) :=
  [ handlers.handle_echo ∅;
    handlers.handle_math_add {[ "a" := VStr "not_a_number"; "b" := VInt 5 ]};
    handlers.handle_get_time (host 2%nat) {[ "format" := VStr "invalid_format" ]} ].

Definition test_error_handling (host : nat -> Host) : bool :=
  forallb raises (error_cases host).

(** A test that raises counts as failed. *)
Definition outcome_of (r : result bool) : bool :=
  match r with Return b => b | Raise _ => false end.

(** [run_all_tests] of test_server.py: [passed == total]. *)
Definition run_all_tests (boot : Host) (host : nat -> Host) : bool :=
  let test_results :=
    [ test_tool_discovery; outcome_of test_tool_validation;
      test_tool_handlers boot host; test_error_handling host ] in
  let passed := length (List.filter id test_results) in
  let total := length test_results in
  Nat.eqb passed total.

(** [run_tests] of test_simple.py. *)
Definition run_tests : bool :=
  let results := [ test_tool_discovery; outcome_of test_tool_validation ] in
  let passed := length (List.filter id results) in
  let total := length results in
  Nat.eqb passed total.

End tests.

(** * Facts about the model *)

Section TextFacts.

#[local] Arguments String.append !_ _ / : simpl nomatch.

Lemma prefix_refl (s : string) : String.prefix s s = true.
Proof.
  induction s as [|c s IH]; simpl; [reflexivity|].
  destruct (ascii_dec c c) as [_|Hne]; [exact IH | contradiction].
Qed.

Lemma prefix_app (s t : string) : String.prefix s (s +:+ t) = true.
Proof.
  induction s as [|c s IH]; simpl; [destruct t; reflexivity|].
  destruct (ascii_dec c c) as [_|Hne]; [exact IH | contradiction].
Qed.

Lemma contains_here (s t : string) : contains s (s +:+ t) = true.
Proof.
  destruct s as [|c s]; [destruct t; reflexivity|].
  pose proof (prefix_app (String c s) t) as H.
  simpl in *. now rewrite H.
Qed.

(** A needle is found wherever it sits in the haystack. *)
Lemma contains_app (pre s post : string) :
  contains s (pre +:+ s +:+ post) = true.
Proof.
  induction pre as [|c pre IH].
  - simpl. apply contains_here.
  - simpl. rewrite IH. apply orb_true_r.
Qed.

Lemma append_empty_r (s : string) : s +:+ "" = s.
Proof. induction s as [|c s IH]; simpl; congruence. Qed.

Lemma append_assoc (a b c : string) : (a +:+ b) +:+ c = a +:+ (b +:+ c).
Proof. induction a as [|x a IH]; simpl; congruence. Qed.

Lemma contains_suffix (pre s : string) : contains s (pre +:+ s) = true.
Proof. rewrite <- (append_empty_r s) at 2. apply contains_app. Qed.

End TextFacts.

Section CatalogFacts.

Lemma tool_names_eq :
  tool_names = [ "hello_world"; "echo"; "get_time"; "math_add"; "debug_info" ].
Proof. reflexivity. Qed.

(** A name outside the catalog differs from each of the five names. *)
Lemma not_in_catalog (nm : string) :
  nm ∉ tool_names ->
  nm ≠ "hello_world" /\ nm ≠ "echo" /\ nm ≠ "get_time"
  /\ nm ≠ "math_add" /\ nm ≠ "debug_info".
Proof.
  rewrite tool_names_eq. intros Hout.
  repeat split; intros ->; apply Hout; set_solver.
Qed.

Lemma eqb_ne (a b : string) : a ≠ b -> String.eqb a b = false.
Proof. intros Hne. now apply String.eqb_neq. Qed.

Lemma route_unknown (nm : string) : nm ∉ tool_names -> server.route nm = None.
Proof.
  intros Hout. destruct (not_in_catalog nm Hout) as (H1 & H2 & H3 & H4 & H5).
  unfold server.route. now rewrite !eqb_ne.
Qed.

(** The dispatcher routes catalog names only. *)
Lemma route_in_catalog (nm : string) (h : server.Handler) :
  server.route nm = Some h -> nm ∈ tool_names.
Proof.
  unfold server.route. rewrite tool_names_eq.
  repeat match goal with
         | |- context [String.eqb nm ?s] =>
             destruct (String.eqb_spec nm s) as [->|_]; [set_solver|]
         end.
  discriminate.
Qed.

Lemma get_tool_unknown (nm : string) :
  nm ∉ tool_names ->
  tools.get_tool_by_name nm
  = Raise (Exc ValueError ("Tool '" +:+ nm +:+ "' not found")).
Proof.
  intros Hout. destruct (not_in_catalog nm Hout) as (H1 & H2 & H3 & H4 & H5).
  unfold tools.get_tool_by_name. cbn [find tools.get_all_tools tools.name].
  now rewrite !eqb_ne.
Qed.

End CatalogFacts.

Section ServerFacts.

Lemma serve_counts (req : server.Request) (self : SimpleMCPServer) :
  server.serve req self = server.count_request self.
Proof. destruct req; reflexivity. Qed.

Lemma serve_all_fields (reqs : list server.Request) (self : SimpleMCPServer) :
  request_count (server.serve_all reqs self)
  = request_count self + Z.of_nat (length reqs)
  /\ server_name (server.serve_all reqs self) = server_name self
  /\ start_time (server.serve_all reqs self) = start_time self.
Proof.
  revert self. induction reqs as [|req reqs IH]; intros self.
  - cbn. split; [lia | easy].
  - change (server.serve_all (req :: reqs) self)
      with (server.serve_all reqs (server.serve req self)).
    destruct (IH (server.serve req self)) as (Hc & Hn & Ht).
    rewrite Hc, Hn, Ht, serve_counts. cbn [length request_count server_name
      start_time server.count_request]. split; [lia | easy].
Qed.

End ServerFacts.

(** * The dispatcher *)

(** C9. Serving a request of any of the four kinds adds exactly one to
    [request_count] and leaves [server_name] and [start_time] as they
    were; over any sequence of requests the counter has grown by the
    number of requests, so it never decreases. *)
Theorem requests_only_count (req : server.Request) (reqs : list server.Request)
    (self : SimpleMCPServer) :
  server.serve req self
  = {| server_name := server_name self;
       start_time := start_time self;
       request_count := request_count self + 1 |}
  /\ request_count (server.serve_all reqs self)
     = request_count self + Z.of_nat (length reqs)
  /\ request_count self <= request_count (server.serve_all reqs self)
  /\ server_name (server.serve_all reqs self) = server_name self
  /\ start_time (server.serve_all reqs self) = start_time self.
Proof.
  destruct (serve_all_fields reqs self) as (Hc & Hn & Ht).
  split; [apply serve_counts|].
  split; [exact Hc|]. split; [lia|]. split; assumption.
Qed.

(** * The catalog *)

(** C7. [list_tools] returns the catalog of [get_all_tools] after any
    sequence of earlier requests, from any server state: the same five
    descriptors in the same order every time. *)
Theorem list_tools_is_constant (reqs reqs' : list server.Request)
    (self self' : SimpleMCPServer) :
  fst (server.handle_list_tools (server.serve_all reqs self))
  = Return tools.get_all_tools
  /\ fst (server.handle_list_tools (server.serve_all reqs self))
     = fst (server.handle_list_tools (server.serve_all reqs' self'))
  /\ length tools.get_all_tools = 5%nat
  /\ map tools.name tools.get_all_tools
     = [ "hello_world"; "echo"; "get_time"; "math_add"; "debug_info" ].
Proof. repeat split. Qed.

(** * The argument validator *)

Section ValidatorFacts.

Lemma validate_returns (tool_name : string) (arguments : ArgumentMap) :
  exists b, tools.validate_tool_arguments tool_name arguments = Return b.
Proof.
  unfold tools.validate_tool_arguments.
  destruct (tools.get_tool_by_name tool_name) as [tool|e];
    cbn [mbind result_bind try_except]; [|eauto].
  repeat match goal with |- context [if ?c then _ else _] => destruct c end;
    cbn [try_except]; eauto.
Qed.

(** The validator on a tool of the catalog. *)
Lemma validate_known (tool : tools.Tool) (arguments : ArgumentMap) :
  tools.get_tool_by_name (tools.name tool) = Return tool ->
  tools.validate_tool_arguments (tools.name tool) arguments
  = Return
      (forallb (has_key arguments) (tools.required (tools.inputSchema tool))
       && forallb (tools.field_type_ok (tools.properties (tools.inputSchema tool)))
            (map_to_list arguments)).
Proof.
  intros Hget. unfold tools.validate_tool_arguments. rewrite Hget.
  cbn [mbind result_bind].
  destruct (forallb (has_key arguments) _); cbn [negb andb try_except];
    [|reflexivity].
  destruct (forallb (tools.field_type_ok _) _); reflexivity.
Qed.

Lemma get_tool_known (tool : tools.Tool) :
  tool ∈ tools.get_all_tools ->
  tools.get_tool_by_name (tools.name tool) = Return tool.
Proof.
  intros Hin. unfold tools.get_all_tools in Hin.
  repeat (apply elem_of_cons in Hin as [->|Hin]; [reflexivity|]).
  now apply elem_of_nil in Hin.
Qed.

(** A required parameter that is absent makes the validator answer
    [False]. *)
Lemma validate_missing_required (tool : tools.Tool) (arguments : ArgumentMap)
    (field : string) :
  tool ∈ tools.get_all_tools ->
  field ∈ tools.required (tools.inputSchema tool) ->
  arguments !! field = None ->
  tools.validate_tool_arguments (tools.name tool) arguments = Return false.
Proof.
  intros Htool Hreq Habsent.
  rewrite (validate_known tool arguments (get_tool_known tool Htool)).
  f_equal. apply andb_false_iff. left.
  apply not_true_is_false. intros Hall.
  rewrite forallb_forall in Hall.
  specialize (Hall field (proj1 (list_elem_of_In _ _) Hreq)).
  unfold has_key in Hall. now rewrite Habsent in Hall.
Qed.

(** A supplied field of a declared type ["string"] or ["boolean"] whose
    value is of another type makes the validator answer [False]; so does
    a field declared ["number"] whose value is neither an [int], a
    [float] nor a [bool]. *)
Lemma validate_type_mismatch (tool : tools.Tool) (arguments : ArgumentMap)
    (field : string) (value : Value) (p : tools.Property) :
  tool ∈ tools.get_all_tools ->
  tools.lookup_property (tools.properties (tools.inputSchema tool)) field = Some p ->
  arguments !! field = Some value ->
  (tools.prop_type p = "string" /\ isinstance_str value = false)
  \/ (tools.prop_type p = "number" /\ isinstance_int_float value = false)
  \/ (tools.prop_type p = "boolean" /\ isinstance_bool value = false) ->
  tools.validate_tool_arguments (tools.name tool) arguments = Return false.
Proof.
  intros Htool Hprop Hval Hbad.
  rewrite (validate_known tool arguments (get_tool_known tool Htool)).
  f_equal. apply andb_false_iff. right.
  apply not_true_is_false. intros Hall.
  rewrite forallb_forall in Hall.
  assert (Hin : In (field, value) (map_to_list arguments)).
  { apply list_elem_of_In. now apply elem_of_map_to_list. }
  specialize (Hall _ Hin). unfold tools.field_type_ok in Hall.
  rewrite Hprop in Hall.
  cbv zeta in Hall.
  destruct Hbad as [[Ht Hv]|[[Ht Hv]|[Ht Hv]]];
    rewrite Ht, Hv in Hall; discriminate Hall.
Qed.

(** A field that the schema does not declare has no part in the answer. *)
Lemma validate_ignores_undeclared (tool : tools.Tool) (arguments : ArgumentMap)
    (field : string) (value : Value) :
  tool ∈ tools.get_all_tools ->
  tools.lookup_property (tools.properties (tools.inputSchema tool)) field = None ->
  field ∉ tools.required (tools.inputSchema tool) ->
  arguments !! field = None ->
  tools.validate_tool_arguments (tools.name tool) (<[field := value]> arguments)
  = tools.validate_tool_arguments (tools.name tool) arguments.
Proof.
  intros Htool Hprop Hreq Hfresh.
  rewrite !(validate_known tool _ (get_tool_known tool Htool)).
  f_equal. f_equal.
  - assert (Hks : forall ks : list string, field ∉ ks ->
              forallb (has_key (<[field := value]> arguments)) ks
              = forallb (has_key arguments) ks).
    { clear. induction ks as [|k ks IH]; intros Hout; [reflexivity|].
      apply not_elem_of_cons in Hout as [Hne Hout].
      cbn [forallb]. rewrite (IH Hout). f_equal.
      unfold has_key. now rewrite lookup_insert_ne. }
    now apply Hks.
  - apply eq_true_iff_eq. rewrite !forallb_forall. split.
    + intros Hall [k x] Hin. apply Hall.
      apply list_elem_of_In, elem_of_map_to_list.
      apply list_elem_of_In, elem_of_map_to_list in Hin.
      rewrite lookup_insert_ne; [exact Hin|]. intros <-. congruence.
    + intros Hall [k x] Hin.
      apply list_elem_of_In, elem_of_map_to_list in Hin.
      destruct (decide (field = k)) as [<-|Hne].
      * unfold tools.field_type_ok. now rewrite Hprop.
      * rewrite lookup_insert_ne in Hin by exact Hne.
        apply Hall. now apply list_elem_of_In, elem_of_map_to_list.
Qed.

End ValidatorFacts.

(** C3 (where the code departs from it). The schema of [math_add] declares
    ["a"] as a ["number"], yet the validator accepts the boolean [True] for
    it: [isinstance(True, (int, float))] holds in Python.  The two answers
    quoted for [echo] are as stated. *)
Theorem validate_accepts_bool_as_number :
  tools.validate_tool_arguments "math_add" {[ "a" := VBool true; "b" := VInt 2 ]}
  = Return true
  /\ tools.validate_tool_arguments "echo" ∅ = Return false
  /\ tools.validate_tool_arguments "echo" {[ "message" := VStr "hi" ]} = Return true.
Proof. repeat split; vm_compute; reflexivity. Qed.

(** C10. For a name that is not in the catalog the lookup raises
    [ValueError]; the validator absorbs it and returns [False]. *)
Theorem validate_unknown_tool_is_false (tool_name : string)
    (arguments : ArgumentMap) :
  (tool_name ∉ tool_names) ->
  raises (tools.get_tool_by_name tool_name) = true
  /\ tools.validate_tool_arguments tool_name arguments = Return false.
Proof.
  intros Hout. unfold tools.validate_tool_arguments.
  rewrite (get_tool_unknown tool_name Hout). split; reflexivity.
Qed.

Lemma validate_unknown_tool_is_false_witness :
  ("nonexistent_tool" ∉ tool_names)
  /\ tools.validate_tool_arguments "nonexistent_tool" {[ "message" := VStr "hi" ]}
     = Return false.
Proof.
  assert (Hout : "nonexistent_tool" ∉ tool_names).
  { apply (bool_decide_unpack _). vm_compute. exact I. }
  split; [exact Hout|].
  exact (proj2 (validate_unknown_tool_is_false "nonexistent_tool"
                  {[ "message" := VStr "hi" ]} Hout)).
Defined.

(** * The handlers *)

Section HandlerFacts.

(** The dispatcher's answer, given what the routed handler did. *)
Lemma call_tool_routed (host : Host) (name : string) (arguments : ArgumentMap)
    (self : SimpleMCPServer) (h : server.Handler) (r : result string) :
  server.route name = Some h ->
  server.invoke h host arguments (server.count_request self) = r ->
  fst (server.handle_call_tool host name arguments self)
  = Return [ server.text_content (outcome_text name (Some r)) ].
Proof.
  intros Hroute Hr. unfold server.handle_call_tool. rewrite Hroute, Hr.
  destruct r; reflexivity.
Qed.

End HandlerFacts.



Section DebugInfoFacts.

Lemma greater_than_one_nonzero (x : spec_float) :
  F64.ltb (F64.of_Z 1) x = true -> F64.is_zero x = false.
Proof. destruct x; [|reflexivity..]. vm_compute. discriminate. Qed.


End DebugInfoFacts.

(** * Further properties of the catalog and the validator *)

(** X1. Looking a tool up by the name of a catalog entry returns that very
    entry; whatever the lookup returns is an entry of the catalog with the
    name asked for; and no two entries share a name. *)
Theorem get_tool_by_name_round_trip (tool : tools.Tool) (nm : string) :
  (tool ∈ tools.get_all_tools ->
   tools.get_tool_by_name (tools.name tool) = Return tool)
  /\ (tools.get_tool_by_name nm = Return tool ->
      tool ∈ tools.get_all_tools /\ tools.name tool = nm)
  /\ NoDup tool_names.
Proof.
  split; [apply get_tool_known|]. split.
  - unfold tools.get_tool_by_name.
    destruct (find _ tools.get_all_tools) as [t|] eqn:Hfind; [|discriminate].
    intros [= ->]. apply find_some in Hfind as [Hin Heq].
    split; [now apply list_elem_of_In | now apply String.eqb_eq in Heq].
  - apply (bool_decide_unpack _). vm_compute. exact I.
Qed.

Lemma get_tool_by_name_round_trip_witness :
  exists tool, tools.get_tool_by_name "math_add" = Return tool
               /\ tool ∈ tools.get_all_tools
               /\ tools.name tool = "math_add".
Proof.
  destruct (tools.get_tool_by_name "math_add") as [tool|e] eqn:Hget;
    [|vm_compute in Hget; discriminate].
  exists tool. split; [reflexivity|].
  exact (proj1 (proj2 (get_tool_by_name_round_trip tool "math_add")) Hget).
Defined.

(** X2. The dispatcher has a handler for a name exactly when the name is
    in the catalog, which is exactly when the lookup by name succeeds. *)
Theorem dispatcher_serves_exactly_the_catalog (nm : string) :
  (is_Some (server.route nm) <-> nm ∈ tool_names)
  /\ (nm ∈ tool_names <-> raises (tools.get_tool_by_name nm) = false).
Proof.
  assert (Hin : nm ∈ tool_names ->
                is_Some (server.route nm)
                /\ raises (tools.get_tool_by_name nm) = false).
  { rewrite tool_names_eq. intros Hin.
    repeat (apply elem_of_cons in Hin as [->|Hin]; [split; [eexists|]; reflexivity|]).
    now apply elem_of_nil in Hin. }
  split; split.
  - intros [h Hh]. now apply route_in_catalog with h.
  - intros H. now apply Hin.
  - intros H. now apply Hin.
  - intros Hok. destruct (decide (nm ∈ tool_names)) as [|Hout]; [assumption|].
    rewrite (get_tool_unknown nm Hout) in Hok. discriminate.
Qed.

Lemma dispatcher_serves_exactly_the_catalog_witness :
  is_Some (server.route "get_time") /\ ("get_time" ∈ tool_names).
Proof.
  assert (Hr : is_Some (server.route "get_time")) by (eexists; reflexivity).
  split; [exact Hr|].
  exact (proj1 (proj1 (dispatcher_serves_exactly_the_catalog "get_time")) Hr).
Defined.

Section ValidatorCharacterisation.

Lemma field_type_ok_accepts (props : list (string * tools.Property))
    (field : string) (value : Value) :
  tools.field_type_ok props (field, value)
  = match tools.lookup_property props field with
    | Some p => type_accepts (tools.prop_type p) value
    | None => true
    end.
Proof.
  unfold tools.field_type_ok, type_accepts.
  destruct (tools.lookup_property props field) as [p|]; [|reflexivity].
  cbv zeta.
  destruct (String.eqb_spec (tools.prop_type p) "string") as [E|_].
  { rewrite ?E. cbn [andb]. now destruct (isinstance_str value). }
  destruct (String.eqb_spec (tools.prop_type p) "number") as [E|_].
  { rewrite ?E. cbn [andb]. now destruct (isinstance_int_float value). }
  destruct (String.eqb_spec (tools.prop_type p) "boolean") as [E|_].
  { rewrite ?E. cbn [andb]. now destruct (isinstance_bool value). }
  reflexivity.
Qed.

(** What an accepted argument map satisfies. *)
Lemma validated_required_in (tool : tools.Tool) (arguments : ArgumentMap)
    (field : string) :
  tool ∈ tools.get_all_tools ->
  tools.validate_tool_arguments (tools.name tool) arguments = Return true ->
  field ∈ tools.required (tools.inputSchema tool) ->
  is_Some (arguments !! field).
Proof.
  intros Htool Hv Hreq.
  rewrite (validate_known tool arguments (get_tool_known tool Htool)) in Hv.
  injection Hv as Hand. apply andb_true_iff in Hand as [Hall _].
  rewrite forallb_forall in Hall.
  specialize (Hall field (proj1 (list_elem_of_In _ _) Hreq)).
  unfold has_key in Hall. destruct (arguments !! field); [eauto | discriminate].
Qed.

Lemma validated_field_in (tool : tools.Tool) (arguments : ArgumentMap)
    (field : string) (value : Value) (p : tools.Property) :
  tool ∈ tools.get_all_tools ->
  tools.validate_tool_arguments (tools.name tool) arguments = Return true ->
  arguments !! field = Some value ->
  tools.lookup_property (tools.properties (tools.inputSchema tool)) field = Some p ->
  type_accepts (tools.prop_type p) value = true.
Proof.
  intros Htool Hv Hval Hprop.
  rewrite (validate_known tool arguments (get_tool_known tool Htool)) in Hv.
  injection Hv as Hand. apply andb_true_iff in Hand as [_ Hall].
  rewrite forallb_forall in Hall.
  assert (Hin : In (field, value) (map_to_list arguments))
    by now apply list_elem_of_In, elem_of_map_to_list.
  specialize (Hall _ Hin). now rewrite field_type_ok_accepts, Hprop in Hall.
Qed.

(** An argument map with these two properties is accepted. *)
Lemma accepted_when (tool : tools.Tool) (arguments : ArgumentMap) :
  tool ∈ tools.get_all_tools ->
  (forall field, field ∈ tools.required (tools.inputSchema tool) ->
     is_Some (arguments !! field)) ->
  (forall field value p,
     arguments !! field = Some value ->
     tools.lookup_property (tools.properties (tools.inputSchema tool)) field = Some p ->
     type_accepts (tools.prop_type p) value = true) ->
  tools.validate_tool_arguments (tools.name tool) arguments = Return true.
Proof.
  intros Htool Hreq Hty.
  rewrite (validate_known tool arguments (get_tool_known tool Htool)).
  f_equal. apply andb_true_iff. split.
  - apply forallb_forall. intros field Hin. apply list_elem_of_In in Hin.
    destruct (Hreq field Hin) as [v Hv]. unfold has_key. now rewrite Hv.
  - apply forallb_forall. intros [field value] Hin.
    apply list_elem_of_In, elem_of_map_to_list in Hin.
    rewrite field_type_ok_accepts.
    destruct (tools.lookup_property _ field) as [p|] eqn:Hprop; [|reflexivity].
    now apply (Hty field value p).
Qed.

End ValidatorCharacterisation.

(** X3. For a tool of the catalog the validator answers [True] exactly
    when every required parameter is among the arguments and every
    supplied argument that the schema declares has a value its declared
    type accepts, where ["number"] accepts [int], [float] and [bool]. *)
Theorem validate_accepts_iff (tool : tools.Tool) (arguments : ArgumentMap) :
  tool ∈ tools.get_all_tools ->
  (tools.validate_tool_arguments (tools.name tool) arguments = Return true
   <-> (forall field, field ∈ tools.required (tools.inputSchema tool) ->
          is_Some (arguments !! field))
       /\ (forall field value p,
             arguments !! field = Some value ->
             tools.lookup_property (tools.properties (tools.inputSchema tool)) field
             = Some p ->
             type_accepts (tools.prop_type p) value = true)).
Proof.
  intros Htool. split.
  - intros Hv. split.
    + intros field Hreq. now apply (validated_required_in tool).
    + intros field value p Hval Hprop.
      now apply (validated_field_in tool arguments field).
  - intros [Hreq Hty]. now apply accepted_when.
Qed.

Lemma validate_accepts_iff_witness :
  exists tool,
    tool ∈ tools.get_all_tools
    /\ tools.name tool = "echo"
    /\ forall field, field ∈ tools.required (tools.inputSchema tool) ->
         is_Some (({[ "message" := VStr "hi"; "extra" := VInt 1 ]} : ArgumentMap)
                    !! field).
Proof.
  destruct (tools.get_tool_by_name "echo") as [tool|e] eqn:Hget;
    [|vm_compute in Hget; discriminate].
  assert (Htool : tool ∈ tools.get_all_tools /\ tools.name tool = "echo").
  { unfold tools.get_tool_by_name in Hget.
    destruct (find _ tools.get_all_tools) as [t|] eqn:Hfind; [|discriminate].
    injection Hget as ->. apply find_some in Hfind as [Hin Heq].
    split; [now apply list_elem_of_In | now apply String.eqb_eq in Heq]. }
  destruct Htool as [Hin Hname].
  exists tool. split; [exact Hin|]. split; [exact Hname|].
  refine (proj1 (proj1 (validate_accepts_iff tool
                  {[ "message" := VStr "hi"; "extra" := VInt 1 ]} Hin) _)).
  rewrite Hname. vm_compute. reflexivity.
Defined.

(** Picks the [i]-th catalog entry as [tool], with its membership [Hin]. *)
Ltac catalog_entry i tool Hin :=
  let Ht := fresh "Ht" in
  destruct (tools.get_all_tools !! i) as [tool|] eqn:Ht; [|discriminate];
  assert (Hin : tool ∈ tools.get_all_tools)
    by (apply list_elem_of_lookup; exists i; exact Ht);
  vm_compute in Ht; injection Ht as <-.

(** X4. The validator is blind to a field that the tool's schema does not
    declare: setting it to any value, overwriting it or removing it leaves
    the answer as it was. *)
Theorem validate_blind_to_undeclared_fields (tool : tools.Tool)
    (arguments : ArgumentMap) (field : string) (value : Value) :
  tool ∈ tools.get_all_tools ->
  tools.lookup_property (tools.properties (tools.inputSchema tool)) field = None ->
  (field ∉ tools.required (tools.inputSchema tool)) ->
  tools.validate_tool_arguments (tools.name tool) (<[ field := value ]> arguments)
  = tools.validate_tool_arguments (tools.name tool) arguments
  /\ tools.validate_tool_arguments (tools.name tool) (delete field arguments)
     = tools.validate_tool_arguments (tools.name tool) arguments.
Proof.
  intros Htool Hprop Hreq.
  assert (Hdel : forall v : Value,
            tools.validate_tool_arguments (tools.name tool)
              (<[ field := v ]> (delete field arguments))
            = tools.validate_tool_arguments (tools.name tool) (delete field arguments)).
  { intros v. apply validate_ignores_undeclared; try assumption.
    apply lookup_delete_eq. }
  assert (Hsame : tools.validate_tool_arguments (tools.name tool) (delete field arguments)
                  = tools.validate_tool_arguments (tools.name tool) arguments).
  { destruct (arguments !! field) as [v|] eqn:Hv.
    - rewrite <- (Hdel v). now rewrite insert_delete_id.
    - now rewrite delete_id. }
  split; [|exact Hsame].
  rewrite <- Hsame, <- (Hdel value). now rewrite insert_delete_eq.
Qed.

Lemma validate_blind_to_undeclared_fields_witness :
  tools.validate_tool_arguments "echo"
    (<[ "colour" := VInt 7 ]> {[ "message" := VStr "hi"; "colour" := VNone ]})
  = tools.validate_tool_arguments "echo"
      {[ "message" := VStr "hi"; "colour" := VNone ]}.
Proof.
  catalog_entry 1%nat tool Hin.
  refine (proj1 (validate_blind_to_undeclared_fields _
                   {[ "message" := VStr "hi"; "colour" := VNone ]}
                   "colour" (VInt 7) Hin _ _)).
  - reflexivity.
  - apply (bool_decide_unpack _). vm_compute. exact I.
Defined.

(** X5. The validator never raises: for every tool name and every
    argument map it returns a boolean, and it returns [True] only for a
    name of the catalog. *)
Theorem validate_always_answers (tool_name : string) (arguments : ArgumentMap) :
  exists b : bool,
    tools.validate_tool_arguments tool_name arguments = Return b
    /\ (b = true -> tool_name ∈ tool_names).
Proof.
  destruct (validate_returns tool_name arguments) as [b Hb].
  exists b. split; [exact Hb|]. intros ->.
  destruct (decide (tool_name ∈ tool_names)) as [|Hout]; [assumption|].
  unfold tools.validate_tool_arguments in Hb.
  rewrite (get_tool_unknown tool_name Hout) in Hb. discriminate.
Qed.

Lemma validate_always_answers_witness :
  tools.validate_tool_arguments "hello_world" {[ "name" := VStr "Ada" ]}
  = Return true
  /\ ("hello_world" ∈ tool_names).
Proof.
  destruct (validate_always_answers "hello_world" {[ "name" := VStr "Ada" ]})
    as (b & Hb & Hin).
  assert (Hv : tools.validate_tool_arguments "hello_world" {[ "name" := VStr "Ada" ]}
               = Return true) by (vm_compute; reflexivity).
  split; [exact Hv|]. apply Hin. rewrite Hv in Hb. now injection Hb as <-.
Defined.

(** * The validator and the handlers together *)

Section ValidatedArguments.





End ValidatedArguments.





(** X8. The validator does not look at a schema's [enum]: it accepts
    every string as the [format] of [get_time], also one that the handler
    then rejects with [ValueError]. *)
Theorem validate_accepts_any_format_string (host : Host) (fmt : string) :
  tools.validate_tool_arguments "get_time" {[ "format" := VStr fmt ]} = Return true
  /\ (known_time_format (VStr fmt) = false ->
      handlers.handle_get_time host {[ "format" := VStr fmt ]}
      = Raise (Exc ValueError ("Unknown time format: " +:+ fmt))).
Proof.
  split.
  - catalog_entry 2%nat tool Hin.
    apply (accepted_when _ {[ "format" := VStr fmt ]} Hin).
    + intros field Hreq. cbn in Hreq. now apply elem_of_nil in Hreq.
    + intros field value p Hval Hprop.
      apply lookup_singleton_Some in Hval as [<- <-].
      vm_compute in Hprop. injection Hprop as <-. reflexivity.
  - unfold known_time_format, handlers.handle_get_time, dict_get.
    rewrite lookup_singleton_eq. cbn [default from_option id].
    intros Hunknown.
    apply orb_false_iff in Hunknown as [Hunknown Hts].
    apply orb_false_iff in Hunknown as [Hiso Hrd].
    now rewrite Hiso, Hts, Hrd.
Qed.

Lemma validate_accepts_any_format_string_witness :
  known_time_format (VStr "bogus") = false
  /\ tools.validate_tool_arguments "get_time" {[ "format" := VStr "bogus" ]}
     = Return true
  /\ handlers.handle_get_time sample_host {[ "format" := VStr "bogus" ]}
     = Raise (Exc ValueError "Unknown time format: bogus").
Proof.
  assert (Hf : known_time_format (VStr "bogus") = false) by reflexivity.
  split; [exact Hf|]. split.
  - exact (proj1 (validate_accepts_any_format_string sample_host "bogus")).
  - exact (proj2 (validate_accepts_any_format_string sample_host "bogus") Hf).
Defined.

(** * What a response depends on *)

Section Routing.


End Routing.





(** * The schemas and the handlers *)

(** X14. The defaults that the schemas declare are the defaults that the
    handlers apply: passing a declared default explicitly for a parameter
    that was left out does not change what the tool's handler does. *)
Theorem declared_defaults_are_applied (tool : tools.Tool) (field : string)
    (p : tools.Property) (d : Value) (h : server.Handler) (host : Host)
    (arguments : ArgumentMap) (self : SimpleMCPServer) :
  tool ∈ tools.get_all_tools ->
  (field, p) ∈ tools.properties (tools.inputSchema tool) ->
  tools.prop_default p = Some d ->
  server.route (tools.name tool) = Some h ->
  arguments !! field = None ->
  server.invoke h host (<[ field := d ]> arguments) self
  = server.invoke h host arguments self.
Proof.
  intros Htool Hprop Hdefault Hroute Hfresh.
  unfold tools.get_all_tools in Htool.
  repeat (apply elem_of_cons in Htool as [->|Htool]);
    [..|now apply elem_of_nil in Htool];
    cbn in Hprop;
    repeat (apply elem_of_cons in Hprop as [[= -> ->]|Hprop]);
    try (now apply elem_of_nil in Hprop);
    cbn in Hdefault; try discriminate; injection Hdefault as <-;
    cbn in Hroute; injection Hroute as <-;
    cbn [server.invoke];
    unfold handlers.handle_hello_world, handlers.handle_echo,
      handlers.handle_get_time, handlers.handle_debug_info,
      handlers.build_debug_info, dict_get;
    rewrite ?lookup_insert_eq, ?lookup_insert_ne by discriminate;
    rewrite ?Hfresh; reflexivity.
Qed.

Lemma declared_defaults_are_applied_witness :
  handlers.handle_echo (<[ "prefix" := VStr "Echo: " ]> {[ "message" := VStr "hi" ]})
  = handlers.handle_echo {[ "message" := VStr "hi" ]}.
Proof.
  catalog_entry 1%nat tool Hin.
  refine (declared_defaults_are_applied _ "prefix"
            (tools.prop_with_default "string"
               "Optional prefix to add to the message" (VStr "Echo: "))
            (VStr "Echo: ") server.Echo sample_host
            {[ "message" := VStr "hi" ]} sample_server Hin _ _ _ _).
  - apply list_elem_of_In. right. left. reflexivity.
  - reflexivity.
  - reflexivity.
  - reflexivity.
Defined.

(** * More on [debug_info] *)

Section DebugInfoOutcome.

Lemma int_truediv_max_1_raises (n : Z) (x : spec_float) (e : PyException) :
  int_truediv n (max_1 x) = Raise e ->
  exc_class e = OverflowError /\ F64.overflow_threshold <= Z.abs n.
Proof.
  unfold max_1. destruct (F64.ltb (F64.of_Z 1) x) eqn:Hgt.
  - unfold int_truediv, py_float.
    destruct (Z.ltb_spec (Z.abs n) F64.overflow_threshold) as [Hlt|Hge];
      cbn [mbind result_bind].
    + rewrite (greater_than_one_nonzero x Hgt). discriminate.
    + intros [= <-]. split; [reflexivity | exact Hge].
  - unfold int_truediv. change (1 =? 0) with false. change (Z.abs 1) with 1.
    destruct (Z.ltb_spec (Z.abs n) (F64.overflow_threshold * 1)) as [Hlt|Hge];
      [discriminate|].
    intros [= <-]. split; [reflexivity | lia].
Qed.

End DebugInfoOutcome.

(** X20. The statistics count the tools listed in the same response, not
    the tools of the catalog: [tools_available] is 5 when [include_tools] is
    true in Python's sense and 0 when it is not; the average next to it is
    the request count divided by the clamped minutes. *)
Theorem debug_info_counts_only_listed_tools (host : Host)
    (arguments : ArgumentMap) (server : SimpleMCPServer)
    (d : list (string * json)) :
  handlers.build_debug_info host arguments server = Return d ->
  py_bool (dict_get arguments "include_stats" (VBool true)) = true ->
  exists avg,
    int_truediv (request_count server) (handlers.elapsed_minutes host server)
    = Return avg
    /\ item d "statistics"
       = Some (JObj [ ("tools_available",
                       JInt (if py_bool (dict_get arguments "include_tools" (VBool true))
                             then 5 else 0));
                      ("avg_requests_per_minute", JFloat avg) ]).
Proof.
  intros Hd Hstats. unfold handlers.build_debug_info in Hd.
  destruct (version_info host) as [[major minor] micro].
  rewrite Hstats in Hd.
  destruct (int_truediv _ _) as [avg|e]; cbn [mbind result_bind] in Hd;
    [|discriminate].
  injection Hd as <-. exists avg. split; [reflexivity|].
  now destruct (py_bool (dict_get arguments "include_tools" (VBool true))).
Qed.

Lemma debug_info_counts_only_listed_tools_witness :
  exists d avg,
    handlers.build_debug_info sample_host {[ "include_tools" := VInt 0 ]}
      sample_server = Return d
    /\ item d "statistics"
       = Some (JObj [ ("tools_available", JInt 0);
                      ("avg_requests_per_minute", JFloat avg) ]).
Proof.
  destruct (handlers.build_debug_info sample_host {[ "include_tools" := VInt 0 ]}
              sample_server) as [d|e] eqn:Hd; [|vm_compute in Hd; discriminate].
  destruct (debug_info_counts_only_listed_tools sample_host
              {[ "include_tools" := VInt 0 ]} sample_server d Hd eq_refl)
    as (avg & _ & Hitem).
  exists d, avg. split; [reflexivity | exact Hitem].
Defined.

(** * More on [math_add] *)

Section Addition.


End Addition.



(** * [validate_required_params] *)

Section RequiredParams.

Lemma filter_absent_nil (arguments : ArgumentMap) (required : list string) :
  List.filter (fun param => negb (has_key arguments param)) required = []
  <-> forall param, param ∈ required -> is_Some (arguments !! param).
Proof.
  induction required as [|r rs IH]; cbn [List.filter].
  - split; [|reflexivity]. intros _ param Hin. now apply elem_of_nil in Hin.
  - unfold has_key at 1. destruct (arguments !! r) as [v|] eqn:Hr; cbn [negb].
    + rewrite IH. split.
      * intros Hall param Hin. apply elem_of_cons in Hin as [->|Hin]; eauto.
      * intros Hall param Hin. apply Hall. now right.
    + split; [discriminate|]. intros Hall.
      destruct (Hall r) as [v Hv]; [now left | congruence].
Qed.

End RequiredParams.

(** X18. [validate_required_params] returns when every required parameter
    is among the arguments, and otherwise raises a [ValueError] whose
    message names the missing ones in the order of the list.  On the
    required list of a catalog tool it raises exactly when the validator
    finds a required parameter missing, so arguments that the validator
    accepts always pass it. *)
Theorem validate_required_params_names_the_missing (arguments : ArgumentMap)
    (required : list string) (tool : tools.Tool) :
  ((forall param, param ∈ required -> is_Some (arguments !! param)) ->
   handlers.validate_required_params arguments required = Return tt)
  /\ (forall e, handlers.validate_required_params arguments required = Raise e ->
        e = Exc ValueError
              ("Missing required parameters: "
                 +:+ join ", " (List.filter (fun param => negb (has_key arguments param))
                                  required))
        /\ exists param, param ∈ required /\ arguments !! param = None)
  /\ (tool ∈ tools.get_all_tools ->
      tools.validate_tool_arguments (tools.name tool) arguments = Return true ->
      handlers.validate_required_params arguments
        (tools.required (tools.inputSchema tool)) = Return tt).
Proof.
  assert (Hret : forall req : list string,
            (forall param, param ∈ req -> is_Some (arguments !! param)) ->
            handlers.validate_required_params arguments req = Return tt).
  { intros req Hall. unfold handlers.validate_required_params.
    now rewrite (proj2 (filter_absent_nil arguments req) Hall). }
  split; [apply Hret|]. split.
  - intros e. unfold handlers.validate_required_params.
    destruct (List.filter _ required) as [|m ms] eqn:Hfilter; [discriminate|].
    intros [= <-]. split; [reflexivity|].
    exists m. assert (Hin : In m (List.filter
                (fun param => negb (has_key arguments param)) required))
      by (rewrite Hfilter; now left).
    apply filter_In in Hin as [Hin Habsent]. split; [now apply list_elem_of_In|].
    unfold has_key in Habsent. now destruct (arguments !! m).
  - intros Htool Hv. apply Hret. intros param Hreq.
    now apply (validated_required_in tool).
Qed.

Lemma validate_required_params_names_the_missing_witness :
  handlers.validate_required_params {[ "b" := VInt 1 ]} [ "a"; "b"; "c" ]
  = Raise (Exc ValueError "Missing required parameters: a, c")
  /\ handlers.validate_required_params {[ "a" := VInt 1; "b" := VInt 2 ]} [ "a"; "b" ]
     = Return tt.
Proof.
  split.
  - destruct (handlers.validate_required_params {[ "b" := VInt 1 ]} [ "a"; "b"; "c" ])
      as [u|e] eqn:Hrun; [vm_compute in Hrun; discriminate|].
    destruct (tools.get_all_tools !! 0%nat) as [tool|] eqn:Ht; [|discriminate].
    rewrite (proj1 (proj1 (proj2 (validate_required_params_names_the_missing
                                    {[ "b" := VInt 1 ]} [ "a"; "b"; "c" ] tool))
                      e Hrun)).
    vm_compute. reflexivity.
  - destruct (tools.get_all_tools !! 0%nat) as [tool|] eqn:Ht; [|discriminate].
    apply (proj1 (validate_required_params_names_the_missing
                    {[ "a" := VInt 1; "b" := VInt 2 ]} [ "a"; "b" ] tool)).
    intros param Hin. apply list_elem_of_In in Hin.
    destruct Hin as [<-|[<-|[]]]; eexists; reflexivity.
Defined.

(** * The repository's tests *)

Section TestFacts.

Lemma math_add_case_fails :
  match handlers.handle_math_add {[ "a" := VInt 10; "b" := VInt 5 ]} with
  | Return result => contains "10 + 5 = 15" result
  | Raise _ => false
  end = false.
Proof. vm_compute. reflexivity. Qed.

End TestFacts.

(** X19. The suite of test_server.py reports failure, whatever the clock:
    tool discovery, validation and error handling pass, but the [math_add]
    case of [test_tool_handlers] expects the text ["10 + 5 = 15"] while the
    handler, which converts to [float], answers ["10.0 + 5.0 = 15.0"].  The
    suite of test_simple.py, which leaves the handlers out, reports
    success. *)
Theorem test_server_suite_fails (boot : Host) (host : nat -> Host) :
  tests.test_tool_discovery = true
  /\ tests.test_tool_validation = Return true
  /\ tests.test_error_handling host = true
  /\ handlers.handle_math_add {[ "a" := VInt 10; "b" := VInt 5 ]}
     = Return "10.0 + 5.0 = 15.0"
  /\ contains "10 + 5 = 15" "10.0 + 5.0 = 15.0" = false
  /\ tests.test_tool_handlers boot host = false
  /\ tests.run_all_tests boot host = false
  /\ tests.run_tests = true.
Proof.
  assert (Hd : tests.test_tool_discovery = true) by (vm_compute; reflexivity).
  assert (Hv : tests.test_tool_validation = Return true) by (vm_compute; reflexivity).
  assert (He : tests.test_error_handling host = true) by reflexivity.
  assert (Hh : tests.test_tool_handlers boot host = false).
  { unfold tests.test_tool_handlers, tests.handler_cases. cbn [forallb].
    rewrite math_add_case_fails. cbn [andb]. now rewrite !andb_false_r. }
  split; [exact Hd|]. split; [exact Hv|]. split; [exact He|].
  split; [vm_compute; reflexivity|]. split; [vm_compute; reflexivity|].
  split; [exact Hh|]. split.
  - unfold tests.run_all_tests. rewrite Hd, Hv, He, Hh. reflexivity.
  - unfold tests.run_tests. rewrite Hd, Hv. reflexivity.
Qed.

(** * The program with its log statements *)

Section LogFacts.

(** Every [int] in the range of a [float] can be printed. *)
Lemma float_range_printable : F64.overflow_threshold < 10 ^ int_max_str_digits.
Proof. vm_compute. reflexivity. Qed.

Lemma small_int_printable (n : Z) :
  Z.abs n < F64.overflow_threshold -> int_printable n = true.
Proof.
  intros H. apply Z.ltb_lt. exact (Z.lt_trans _ _ _ H float_range_printable).
Qed.

Lemma long_int_unprintable : printable (VInt long_int) = false.
Proof.
  cbn [printable]. unfold int_printable, long_int.
  rewrite Z.abs_eq by (apply Z.pow_nonneg; discriminate).
  apply Z.ltb_irrefl.
Qed.

Lemma loggable_spec (arguments : ArgumentMap) :
  loggable arguments = true
  <-> forall k v, arguments !! k = Some v -> printable v = true.
Proof.
  unfold loggable. rewrite forallb_forall. split.
  - intros H k v Hkv. apply (H (k, v)).
    apply list_elem_of_In, elem_of_map_to_list, Hkv.
  - intros H [k v] Hin. apply (H k).
    apply elem_of_map_to_list, list_elem_of_In, Hin.
Qed.

Lemma loggable_empty : loggable ∅ = true.
Proof. reflexivity. Qed.

Lemma loggable_singleton (k : string) (v : Value) :
  loggable {[ k := v ]} = printable v.
Proof.
  unfold loggable. rewrite map_to_list_singleton. cbn [forallb].
  apply andb_true_r.
Qed.

Lemma loggable_insert (k : string) (v : Value) (arguments : ArgumentMap) :
  printable v = true -> loggable arguments = true ->
  loggable (<[ k := v ]> arguments) = true.
Proof.
  intros Hv Hm. apply loggable_spec. intros k' v' Hl.
  apply lookup_insert_Some in Hl as [[_ <-]|[_ Hl]]; [exact Hv|].
  exact (proj1 (loggable_spec arguments) Hm k' v' Hl).
Qed.

(** The only [int]s of the dictionary of [debug_info] are the request
    count and the number of tools. *)
Lemma debug_info_printable (host : Host) (arguments : ArgumentMap)
    (server : SimpleMCPServer) (d : list (string * json)) :
  handlers.build_debug_info host arguments server = Return d ->
  json_printable (JObj d) = int_printable (request_count server).
Proof.
  assert (H5 : int_printable 5 = true)
    by (apply small_int_printable; reflexivity).
  assert (H0 : int_printable 0 = true)
    by (apply small_int_printable; reflexivity).
  unfold handlers.build_debug_info.
  destruct (version_info host) as [[major minor] micro].
  destruct (py_bool (dict_get arguments "include_stats" (VBool true)));
    [destruct (int_truediv _ _) as [avg|e]; cbn [mbind result_bind];
       [|discriminate]|];
    intros [= <-];
    destruct (py_bool (dict_get arguments "include_tools" (VBool true)));
    cbn -[int_printable]; rewrite ?H5, ?H0, ?andb_true_r; reflexivity.
Qed.

(** [handle_debug_info], line by line. *)
Lemma full_debug_info (host : Host) (arguments : ArgumentMap)
    (server : SimpleMCPServer) :
  full.handle_debug_info host arguments server
  = if loggable arguments then
      match handlers.build_debug_info host arguments server with
      | Return d =>
          if int_printable (request_count server)
          then Return (debug_header +:+ json_dumps_indent2 (JObj d))
          else Raise int_limit_error
      | Raise e => Raise e
      end
    else Raise int_limit_error.
Proof.
  unfold full.handle_debug_info, full.log_arguments.
  destruct (loggable arguments); [|reflexivity]. cbn [mbind result_bind].
  destruct (handlers.build_debug_info host arguments server) as [d|e] eqn:Hd;
    [|reflexivity].
  cbn [mbind result_bind]. unfold json_dumps.
  rewrite (debug_info_printable _ _ _ _ Hd).
  now destruct (int_printable (request_count server)).
Qed.

(** Once the request log has printed the arguments and the count, the
    handlers run as in [handlers]. *)
Lemma logged_invoke (h : server.Handler) (host : Host)
    (arguments : ArgumentMap) (self : SimpleMCPServer) :
  loggable arguments = true ->
  int_printable (request_count self) = true ->
  full.invoke h host arguments self = server.invoke h host arguments self.
Proof.
  intros Hlog Hcount. destruct h; cbn [full.invoke server.invoke];
    try (unfold full.handle_hello_world, full.handle_echo,
           full.handle_get_time, full.handle_math_add, full.log_arguments;
         now rewrite Hlog).
  rewrite full_debug_info, Hlog, Hcount. unfold handlers.handle_debug_info.
  now destruct (handlers.build_debug_info host arguments self).
Qed.

(** The whole [handle_call_tool]: its request log, then its [try]. *)
Lemma full_call_tool (host : Host) (name : string) (arguments : ArgumentMap)
    (self : SimpleMCPServer) :
  full.handle_call_tool host name arguments self
  = (if int_printable (request_count self + 1) && loggable arguments
     then fst (server.handle_call_tool host name arguments self)
     else Raise int_limit_error,
     server.count_request self).
Proof.
  unfold full.handle_call_tool, server.handle_call_tool, full.log_request.
  cbn zeta. cbn [fst].
  change (request_count (server.count_request self))
    with (request_count self + 1).
  destruct (int_printable (request_count self + 1)) eqn:Hcount;
    [|reflexivity].
  destruct (loggable arguments) eqn:Hlog; [|reflexivity].
  cbn [andb mbind result_bind].
  destruct (server.route name) as [h|]; [|reflexivity].
  now rewrite (logged_invoke h host arguments (server.count_request self)
                 Hlog Hcount).
Qed.

(** The dispatcher's answer, given what the routed handler did. *)
Lemma full_call_tool_routed (host : Host) (name : string)
    (arguments : ArgumentMap) (self : SimpleMCPServer) (h : server.Handler) :
  server.route name = Some h ->
  int_printable (request_count self + 1) = true ->
  fst (full.handle_call_tool host name arguments self)
  = if loggable arguments
    then Return [ server.text_content
                    (outcome_text name
                       (Some (full.invoke h host arguments
                                (server.count_request self)))) ]
    else Raise int_limit_error.
Proof.
  intros Hroute Hcount. rewrite full_call_tool, Hcount. cbn [fst andb].
  destruct (loggable arguments) eqn:Hlog; [|reflexivity].
  rewrite (logged_invoke h host arguments (server.count_request self)
             Hlog Hcount).
  now apply call_tool_routed with (h := h).
Qed.

End LogFacts.

(** C1, where the program departs from it.  [handle_call_tool] writes its
    request log before it enters the [try] statement: when the log cannot
    print the request count or the arguments, the [ValueError] of the
    conversion reaches the caller.  In every other call the claim holds:
    whatever the routed handler does, its exception is caught and the call
    returns one [TextContent] of type ["text"].  The call of [echo] with a
    message of 4301 digits raises. *)
Theorem call_tool_returns_text_unless_the_log_raises (host : Host)
    (name : string) (arguments : ArgumentMap) (self : SimpleMCPServer) :
  let self' := server.count_request self in
  let routed :=
    (fun h => full.invoke h host arguments self') <$> server.route name in
  full.handle_call_tool host name arguments self
  = (if int_printable (request_count self') && loggable arguments
     then Return [ {| server.type := "text";
                      server.text := outcome_text name routed |} ]
     else Raise int_limit_error,
     self')
  /\ full.handle_call_tool sample_host "echo"
       {[ "message" := VInt long_int ]} sample_server
     = (Raise int_limit_error, server.count_request sample_server)
  /\ exc_class int_limit_error = ValueError.
Proof.
  cbn zeta. split; [|split; [|reflexivity]].
  - rewrite full_call_tool.
    change (request_count (server.count_request self))
      with (request_count self + 1).
    destruct (int_printable (request_count self + 1)) eqn:Hcount;
      [|reflexivity].
    destruct (loggable arguments) eqn:Hlog; [|reflexivity].
    cbn [andb]. f_equal. unfold server.handle_call_tool. cbn [fst].
    destruct (server.route name) as [h|]; cbn [fmap option_fmap option_map];
      [|reflexivity].
    rewrite (logged_invoke h host arguments (server.count_request self)
               Hlog Hcount).
    now destruct (server.invoke h host arguments _).
  - rewrite full_call_tool, loggable_singleton.
    rewrite long_int_unprintable. now rewrite andb_false_r.
Qed.

(** C2, where the program departs from it.  A name that is not in the
    catalog reaches no handler and the request counter grows by one; the
    call returns the text ["Unknown tool: <name>"] when the request log can
    print the count and the arguments, and raises the [ValueError] of the
    log otherwise, as the call of ["nonexistent_tool"] with an argument of
    4301 digits does. *)
Theorem unknown_tool_counted_and_reported_unless_the_log_raises (host : Host)
    (name : string) (arguments : ArgumentMap) (self : SimpleMCPServer) :
  ((name ∉ tool_names) ->
   server.route name = None
   /\ request_count (snd (full.handle_call_tool host name arguments self))
      = request_count self + 1
   /\ fst (full.handle_call_tool host name arguments self)
      = if int_printable (request_count self + 1) && loggable arguments
        then Return [ server.text_content ("Unknown tool: " +:+ name) ]
        else Raise int_limit_error)
  /\ full.handle_call_tool sample_host "nonexistent_tool"
       {[ "x" := VInt long_int ]} sample_server
     = (Raise int_limit_error, server.count_request sample_server).
Proof.
  split.
  - intros Hout. pose proof (route_unknown name Hout) as Hr.
    split; [exact Hr|]. rewrite full_call_tool. cbn [fst snd].
    split; [reflexivity|].
    unfold server.handle_call_tool. now rewrite Hr.
  - rewrite full_call_tool, loggable_singleton.
    rewrite long_int_unprintable. now rewrite andb_false_r.
Qed.

Lemma unknown_tool_counted_and_reported_unless_the_log_raises_witness :
  ("nonexistent_tool" ∉ tool_names)
  /\ request_count
       (snd (full.handle_call_tool sample_host "nonexistent_tool" ∅ sample_server))
     = 8
  /\ fst (full.handle_call_tool sample_host "nonexistent_tool" ∅ sample_server)
     = Return [ server.text_content "Unknown tool: nonexistent_tool" ].
Proof.
  assert (Hout : "nonexistent_tool" ∉ tool_names).
  { apply (bool_decide_unpack _). vm_compute. exact I. }
  split; [exact Hout|].
  destruct (proj1 (unknown_tool_counted_and_reported_unless_the_log_raises
                     sample_host "nonexistent_tool" ∅ sample_server) Hout)
    as (_ & Hcount & Hanswer).
  split; [exact Hcount|]. rewrite Hanswer.
  now rewrite (small_int_printable (request_count sample_server + 1) eq_refl).
Defined.

(** * [echo], [math_add] and [debug_info] as they run *)

Section RunFacts.

Lemma logged_echo (arguments : ArgumentMap) :
  full.handle_echo arguments
  = if loggable arguments then handlers.handle_echo arguments
    else Raise int_limit_error.
Proof.
  unfold full.handle_echo, full.log_arguments. now destruct (loggable arguments).
Qed.

Lemma logged_math_add (arguments : ArgumentMap) :
  full.handle_math_add arguments
  = if loggable arguments then handlers.handle_math_add arguments
    else Raise int_limit_error.
Proof.
  unfold full.handle_math_add, full.log_arguments.
  now destruct (loggable arguments).
Qed.

Lemma logged_hello_world (host : Host) (arguments : ArgumentMap) :
  full.handle_hello_world host arguments
  = if loggable arguments then handlers.handle_hello_world host arguments
    else Raise int_limit_error.
Proof.
  unfold full.handle_hello_world, full.log_arguments.
  now destruct (loggable arguments).
Qed.

(** What the [except] clause of [math_add] makes of a failure of
    [float]. *)
Lemma float_failure (v : Value) (e : PyException) :
  py_float v = Raise e ->
  handlers.invalid_number e
  = Raise (if float_overflows v
           then Exc OverflowError "int too large to convert to float"
           else Exc ValueError ("Invalid number format: " +:+ exc_msg e)).
Proof.
  destruct v; cbn [py_float float_overflows]; try discriminate;
    try (intros [= <-]; reflexivity).
  - rewrite Z.leb_antisym.
    destruct (Z.abs n <? F64.overflow_threshold); [discriminate|].
    intros [= <-]. reflexivity.
  - destruct (F64.parse s); [discriminate|]. intros [= <-]. reflexivity.
Qed.

Lemma float_success (v : Value) (a : spec_float) :
  py_float v = Return a -> float_overflows v = false.
Proof.
  destruct v; cbn [py_float float_overflows]; try reflexivity.
  rewrite Z.leb_antisym.
  now destruct (Z.abs n <? F64.overflow_threshold).
Qed.

End RunFacts.




(** C4, where the program departs from it.  With ["a"] or ["b"] missing
    [math_add] raises [ValueError]; when [float] rejects a value with
    [ValueError] or [TypeError] it raises [ValueError] with the text
    ["Invalid number format: ..."].  But [float] raises [OverflowError] on
    an [int] beyond the range of a [float], which the [except] clause does
    not name: the handler then raises [OverflowError], as it does for
    [{"a": 10**400, "b": 5}].  It also raises, with [ValueError], when an
    argument holds an [int] of more than 4300 digits.  Otherwise it returns
    ["<a> + <b> = <a+b>"], a text that contains the sum.  Through the
    dispatcher [{"a": 10, "b": 5}] gives a text containing ["15"] and
    [{"a": "x", "b": 5}] gives the error text. *)
Theorem math_add_adds_or_raises (host : Host) (arguments : ArgumentMap)
    (self : SimpleMCPServer) :
  (if loggable arguments then
     if math_add_rejects arguments
     then exists e,
         full.handle_math_add arguments = Raise e
         /\ if math_add_overflows arguments
            then e = Exc OverflowError "int too large to convert to float"
            else exc_class e = ValueError
                 /\ if has_key arguments "a" && has_key arguments "b"
                    then String.prefix "Invalid number format: " (exc_msg e) = true
                    else exc_msg e = "Missing required parameters: a and b"
     else exists a b text,
         py_float <$> arguments !! "a" = Some (Return a)
         /\ py_float <$> arguments !! "b" = Some (Return b)
         /\ text = F64.repr a +:+ " + " +:+ F64.repr b +:+ " = "
                     +:+ F64.repr (F64.add a b)
         /\ contains (F64.repr (F64.add a b)) text = true
         /\ full.handle_math_add arguments = Return text
   else full.handle_math_add arguments = Raise int_limit_error)
  /\ (int_printable (request_count self + 1) = true ->
      fst (full.handle_call_tool host "math_add" arguments self)
      = (if loggable arguments
         then Return [ server.text_content
                         (outcome_text "math_add"
                            (Some (full.handle_math_add arguments))) ]
         else Raise int_limit_error)
      /\ fst (full.handle_call_tool host "math_add"
                {[ "a" := VInt 10; "b" := VInt 5 ]} self)
         = Return [ server.text_content "10.0 + 5.0 = 15.0" ]
      /\ contains "15" "10.0 + 5.0 = 15.0" = true
      /\ fst (full.handle_call_tool host "math_add"
                {[ "a" := VStr "x"; "b" := VInt 5 ]} self)
         = Return [ server.text_content
                      "Error executing tool math_add: Invalid number format: could not convert string to float: 'x'" ]
      /\ fst (full.handle_call_tool host "math_add"
                {[ "a" := VInt (10 ^ 400); "b" := VInt 5 ]} self)
         = Return [ server.text_content
                      "Error executing tool math_add: int too large to convert to float" ])
  /\ math_add_rejects {[ "a" := VInt (10 ^ 400); "b" := VInt 5 ]} = true
  /\ full.handle_math_add {[ "a" := VInt (10 ^ 400); "b" := VInt 5 ]}
     = Raise (Exc OverflowError "int too large to convert to float").
Proof.
  split; [|split; [|split]].
  - rewrite logged_math_add. destruct (loggable arguments); [|reflexivity].
    unfold math_add_rejects, math_add_overflows, has_key.
    destruct (arguments !! "a") as [va|] eqn:Ea,
             (arguments !! "b") as [vb|] eqn:Eb;
      cbv beta iota;
      try (exists (Exc ValueError "Missing required parameters: a and b");
           split; [unfold handlers.handle_math_add; now rewrite Ea, ?Eb
                  | split; reflexivity]).
    assert (Hadd : handlers.handle_math_add arguments
                   = '(a, b) ← try_except
                                 (a ← py_float va; b ← py_float vb; Return (a, b))
                                 handlers.invalid_number;
                     Return (F64.repr a +:+ " + " +:+ F64.repr b +:+ " = "
                               +:+ F64.repr (F64.add a b))).
    { unfold handlers.handle_math_add. now rewrite Ea, Eb. }
    destruct (py_float va) as [a|ea] eqn:Ha; cbn [raises orb negb andb].
    + rewrite (float_success va a Ha). cbn [orb].
      destruct (py_float vb) as [b|eb] eqn:Hb; cbn [raises].
      * exists a, b, (F64.repr a +:+ " + " +:+ F64.repr b +:+ " = "
                        +:+ F64.repr (F64.add a b)).
        split; [cbn; now rewrite Ha|]. split; [cbn; now rewrite Hb|].
        split; [reflexivity|]. split; [|exact Hadd].
        rewrite <- !append_assoc. apply contains_suffix.
      * cbn [mbind result_bind try_except] in Hadd.
        rewrite (float_failure vb eb Hb) in Hadd. eexists. split; [exact Hadd|].
        destruct (float_overflows vb); [reflexivity|].
        split; [reflexivity | apply prefix_app].
    + cbn [mbind result_bind try_except] in Hadd.
      rewrite (float_failure va ea Ha) in Hadd. eexists. split; [exact Hadd|].
      destruct (float_overflows va); cbn [orb]; [reflexivity|].
      split; [reflexivity | apply prefix_app].
  - intros Hcount.
    split; [exact (full_call_tool_routed host "math_add" arguments self
                     server.MathAdd eq_refl Hcount)|].
    repeat split;
      try (rewrite (full_call_tool_routed host "math_add" _ self server.MathAdd
                      eq_refl Hcount));
      vm_compute; reflexivity.
  - vm_compute. reflexivity.
  - vm_compute. reflexivity.
Qed.

Lemma math_add_adds_or_raises_witness :
  int_printable (request_count sample_server + 1) = true
  /\ fst (full.handle_call_tool sample_host "math_add"
            {[ "a" := VInt 10; "b" := VInt 5 ]} sample_server)
     = Return [ server.text_content "10.0 + 5.0 = 15.0" ]
  /\ fst (full.handle_call_tool sample_host "math_add"
            {[ "a" := VInt (10 ^ 400); "b" := VInt 5 ]} sample_server)
     = Return [ server.text_content
                  "Error executing tool math_add: int too large to convert to float" ].
Proof.
  assert (Hcount : int_printable (request_count sample_server + 1) = true)
    by (apply small_int_printable; reflexivity).
  split; [exact Hcount|].
  destruct (math_add_adds_or_raises sample_host ∅ sample_server)
    as (_ & Hcall & _).
  destruct (Hcall Hcount) as (_ & Hsum & _ & _ & Hover).
  split; [exact Hsum | exact Hover].
Defined.

Section DebugInfoRun.


(** How [debug_info] can fail. *)
Lemma debug_info_failure (host : Host) (arguments : ArgumentMap)
    (server : SimpleMCPServer) (e : PyException) :
  full.handle_debug_info host arguments server = Raise e ->
  (exc_class e = OverflowError
   /\ loggable arguments = true
   /\ py_bool (dict_get arguments "include_stats" (VBool true)) = true
   /\ F64.overflow_threshold <= Z.abs (request_count server))
  \/ (e = int_limit_error
      /\ (loggable arguments = false
          \/ py_bool (dict_get arguments "include_stats" (VBool true)) = false
             /\ int_printable (request_count server) = false)).
Proof.
  rewrite full_debug_info.
  destruct (loggable arguments); [|intros [= <-]; right; auto].
  destruct (handlers.build_debug_info host arguments server) as [d|e'] eqn:Hd.
  - destruct (int_printable (request_count server)) eqn:Hcount; [discriminate|].
    intros [= <-]. right. split; [reflexivity|]. right. split; [|reflexivity].
    destruct (py_bool (dict_get arguments "include_stats" (VBool true))) eqn:Hs;
      [|reflexivity].
    unfold handlers.build_debug_info in Hd.
    destruct (version_info host) as [[major minor] micro]. rewrite Hs in Hd.
    destruct (int_truediv (request_count server)
                (handlers.elapsed_minutes host server)) as [avg|e0] eqn:Hdiv;
      [|discriminate Hd].
    destruct (Z.ltb_spec (Z.abs (request_count server)) F64.overflow_threshold)
      as [Hlt|Hge].
    + now rewrite (small_int_printable _ Hlt) in Hcount.
    + exfalso. unfold handlers.elapsed_minutes, max_1 in Hdiv.
      destruct (F64.ltb (F64.of_Z 1) _); unfold int_truediv, py_float in Hdiv.
      * replace (Z.abs (request_count server) <? F64.overflow_threshold)
          with false in Hdiv by (symmetry; now apply Z.ltb_ge).
        discriminate Hdiv.
      * change (1 =? 0) with false in Hdiv. change (Z.abs 1) with 1 in Hdiv.
        replace (Z.abs (request_count server) <? F64.overflow_threshold * 1)
          with false in Hdiv
          by (symmetry; apply Z.ltb_ge; now rewrite Z.mul_1_r).
        discriminate Hdiv.
  - intros [= <-]. left. unfold handlers.build_debug_info in Hd.
    destruct (version_info host) as [[major minor] micro].
    destruct (py_bool (dict_get arguments "include_stats" (VBool true)));
      [|discriminate Hd].
    destruct (int_truediv (request_count server)
                (handlers.elapsed_minutes host server)) as [avg|e0] eqn:Hdiv;
      cbn [mbind result_bind] in Hd; [discriminate Hd|].
    injection Hd as <-. unfold handlers.elapsed_minutes in Hdiv.
    destruct (int_truediv_max_1_raises _ _ _ Hdiv). auto.
Qed.

End DebugInfoRun.




(** * Further properties of the program as it runs *)

(** X9. The dispatcher does not consult the validator.  A message that is
    not a string is rejected by the validator and still echoed, as [str]
    renders it, provided it can be printed; a number given as text is
    rejected by the validator and still added by [math_add]. *)
Theorem handlers_accept_what_the_validator_rejects (host : Host)
    (self : SimpleMCPServer) (message : Value) (s : string) (x : spec_float) :
  int_printable (request_count self + 1) = true ->
  (isinstance_str message = false ->
   printable message = true ->
   tools.validate_tool_arguments "echo" {[ "message" := message ]} = Return false
   /\ fst (full.handle_call_tool host "echo" {[ "message" := message ]} self)
      = Return [ server.text_content ("Echo: " +:+ py_str message) ])
  /\ (F64.parse s = Some x ->
      tools.validate_tool_arguments "math_add" {[ "a" := VStr s; "b" := VStr s ]}
      = Return false
      /\ fst (full.handle_call_tool host "math_add"
                {[ "a" := VStr s; "b" := VStr s ]} self)
         = Return [ server.text_content
                      (F64.repr x +:+ " + " +:+ F64.repr x +:+ " = "
                         +:+ F64.repr (F64.add x x)) ]).
Proof.
  intros Hcount. split.
  - intros Hns Hprint. split.
    + catalog_entry 1%nat tool Hin.
      refine (validate_type_mismatch _ {[ "message" := message ]} "message" message
                (tools.prop "string" "Message to echo back") Hin eq_refl _ _).
      * apply lookup_singleton_eq.
      * left. split; [reflexivity | exact Hns].
    + rewrite (full_call_tool_routed host "echo" _ self server.Echo eq_refl Hcount).
      rewrite loggable_singleton, Hprint. cbn [full.invoke].
      rewrite logged_echo, loggable_singleton, Hprint.
      unfold handlers.handle_echo, dict_get.
      rewrite lookup_singleton_eq, lookup_singleton_ne by discriminate.
      reflexivity.
  - intros Hparse. split.
    + catalog_entry 3%nat tool Hin.
      refine (validate_type_mismatch _ {[ "a" := VStr s; "b" := VStr s ]} "a" (VStr s)
                (tools.prop "number" "First number") Hin eq_refl _ _).
      * apply lookup_insert_eq.
      * right. left. split; reflexivity.
    + assert (Hlog : loggable {[ "a" := VStr s; "b" := VStr s ]} = true).
      { apply loggable_insert; [reflexivity|]. now rewrite loggable_singleton. }
      rewrite (full_call_tool_routed host "math_add" _ self server.MathAdd
                 eq_refl Hcount).
      rewrite Hlog. cbn [full.invoke]. rewrite logged_math_add, Hlog.
      unfold handlers.handle_math_add.
      rewrite lookup_insert_eq.
      rewrite lookup_insert_ne, lookup_singleton_eq by discriminate.
      cbn [py_float]. rewrite Hparse. reflexivity.
Qed.

Lemma handlers_accept_what_the_validator_rejects_witness :
  int_printable (request_count sample_server + 1) = true
  /\ tools.validate_tool_arguments "echo" {[ "message" := VInt 5 ]} = Return false
  /\ fst (full.handle_call_tool sample_host "echo" {[ "message" := VInt 5 ]}
            sample_server)
     = Return [ server.text_content "Echo: 5" ]
  /\ fst (full.handle_call_tool sample_host "math_add"
            {[ "a" := VStr "1.5"; "b" := VStr "1.5" ]} sample_server)
     = Return [ server.text_content "1.5 + 1.5 = 3.0" ].
Proof.
  assert (Hcount : int_printable (request_count sample_server + 1) = true)
    by (apply small_int_printable; reflexivity).
  split; [exact Hcount|].
  destruct (handlers_accept_what_the_validator_rejects sample_host sample_server
              (VInt 5) "1.5" (F64.of_ratio 3 2) Hcount) as [Hecho Hadd].
  destruct (Hecho eq_refl (small_int_printable 5 eq_refl)) as [Hv Hcall].
  destruct (Hadd eq_refl) as [_ Hsum].
  split; [exact Hv|]. split; [exact Hcall | exact Hsum].
Defined.

(** X12. A response does not tell an error from a success: when the
    request log prints, the answer to a call of an unknown name is also the
    answer of a successful [echo]. *)
Theorem unknown_tool_answer_is_an_echo_answer (host : Host) (name : string)
    (arguments : ArgumentMap) (self : SimpleMCPServer) :
  (name ∉ tool_names) ->
  loggable arguments = true ->
  int_printable (request_count self + 1) = true ->
  fst (full.handle_call_tool host name arguments self)
  = fst (full.handle_call_tool host "echo"
           {[ "message" := VStr name; "prefix" := VStr "Unknown tool: " ]} self)
  /\ full.handle_echo
       {[ "message" := VStr name; "prefix" := VStr "Unknown tool: " ]}
     = Return ("Unknown tool: " +:+ name).
Proof.
  intros Hout Hlog Hcount.
  assert (Hlog' : loggable {[ "message" := VStr name;
                             "prefix" := VStr "Unknown tool: " ]} = true).
  { apply loggable_insert; [reflexivity|]. now rewrite loggable_singleton. }
  assert (Hecho : full.handle_echo
                    {[ "message" := VStr name; "prefix" := VStr "Unknown tool: " ]}
                  = Return ("Unknown tool: " +:+ name)).
  { rewrite logged_echo, Hlog'. reflexivity. }
  split; [|exact Hecho].
  rewrite (full_call_tool_routed host "echo" _ self server.Echo eq_refl Hcount).
  rewrite Hlog'. cbn [full.invoke]. rewrite Hecho.
  rewrite full_call_tool, Hcount, Hlog. cbn [fst andb].
  unfold server.handle_call_tool. now rewrite (route_unknown name Hout).
Qed.

Lemma unknown_tool_answer_is_an_echo_answer_witness :
  ("no_such_tool" ∉ tool_names)
  /\ fst (full.handle_call_tool sample_host "no_such_tool" ∅ sample_server)
     = fst (full.handle_call_tool sample_host "echo"
              {[ "message" := VStr "no_such_tool"; "prefix" := VStr "Unknown tool: " ]}
              sample_server).
Proof.
  assert (Hout : "no_such_tool" ∉ tool_names).
  { apply (bool_decide_unpack _). vm_compute. exact I. }
  split; [exact Hout|].
  exact (proj1 (unknown_tool_answer_is_an_echo_answer
                  sample_host "no_such_tool" ∅ sample_server Hout loggable_empty
                  (small_int_printable (request_count sample_server + 1)
                     eq_refl))).
Defined.

(** X13. [hello_world] fails only when an argument holds an [int] of more
    than 4300 digits, with the [ValueError] of its log line.  Otherwise its
    text begins with the greeting of the given name, as [str] renders it,
    ["World"] when none is given, and carries the ISO form of the current
    time. *)
Theorem hello_world_greets_what_it_can_print (host : Host)
    (arguments : ArgumentMap) (self : SimpleMCPServer) :
  (loggable arguments = true ->
   exists text,
     full.handle_hello_world host arguments = Return text
     /\ String.prefix
          ("Hello, " +:+ py_str (dict_get arguments "name" (VStr "World")) +:+ "! 👋")
          text = true
     /\ contains ("Generated at: " +:+ isoformat (now host 0)) text = true
     /\ (arguments !! "name" = None -> String.prefix "Hello, World!" text = true)
     /\ (int_printable (request_count self + 1) = true ->
         fst (full.handle_call_tool host "hello_world" arguments self)
         = Return [ server.text_content text ]))
  /\ (loggable arguments = false ->
      full.handle_hello_world host arguments = Raise int_limit_error).
Proof.
  split; intros Hlog; [|now rewrite logged_hello_world, Hlog].
  assert (Hrun : full.handle_hello_world host arguments
                 = handlers.handle_hello_world host arguments)
    by now rewrite logged_hello_world, Hlog.
  eexists. split; [rewrite Hrun; reflexivity|]. split; [|split; [|split]].
  - apply prefix_app.
  - set (needle := "Generated at: " +:+ isoformat (now host 0)).
    rewrite <- !append_assoc. apply contains_suffix.
  - intros Hnone. unfold dict_get. rewrite Hnone.
    exact (prefix_app "Hello, World!" _).
  - intros Hcount.
    rewrite (full_call_tool_routed host "hello_world" _ self server.HelloWorld
               eq_refl Hcount).
    rewrite Hlog. cbn [full.invoke]. rewrite Hrun. reflexivity.
Qed.

Lemma hello_world_greets_what_it_can_print_witness :
  loggable ∅ = true
  /\ (exists text,
        full.handle_hello_world sample_host ∅ = Return text
        /\ String.prefix "Hello, World!" text = true)
  /\ loggable {[ "name" := VInt long_int ]} = false
  /\ full.handle_hello_world sample_host {[ "name" := VInt long_int ]}
     = Raise int_limit_error.
Proof.
  assert (Hlong : loggable {[ "name" := VInt long_int ]} = false)
    by (rewrite loggable_singleton; exact long_int_unprintable).
  split; [reflexivity|]. split; [|split; [exact Hlong|]].
  - destruct (proj1 (hello_world_greets_what_it_can_print sample_host ∅
                       sample_server) loggable_empty)
      as (text & Hrun & _ & _ & Hprefix & _).
    exists text. split; [exact Hrun | exact (Hprefix eq_refl)].
  - exact (proj2 (hello_world_greets_what_it_can_print sample_host
                    {[ "name" := VInt long_int ]} sample_server) Hlong).
Defined.

(** X15. [debug_info] never divides by zero.  It can fail in two ways
    only: with [OverflowError], when statistics are asked for and the
    request count is beyond the range of a [float]; and with the
    [ValueError] of the conversion of an [int] of more than 4300 digits,
    when an argument holds one or when, without statistics, the request
    count is one. *)
Theorem debug_info_fails_only_on_huge_ints (host : Host)
    (arguments : ArgumentMap) (server : SimpleMCPServer) (e : PyException) :
  full.handle_debug_info host arguments server = Raise e ->
  exc_class e <> ZeroDivisionError
  /\ (exc_class e = OverflowError
      /\ loggable arguments = true
      /\ py_bool (dict_get arguments "include_stats" (VBool true)) = true
      /\ F64.overflow_threshold <= Z.abs (request_count server)
      \/ e = int_limit_error
         /\ (loggable arguments = false
             \/ py_bool (dict_get arguments "include_stats" (VBool true)) = false
                /\ 10 ^ int_max_str_digits <= Z.abs (request_count server))).
Proof.
  intros He.
  destruct (debug_info_failure host arguments server e He)
    as [(Hclass & Hlog & Hstats & Hcount)|(-> & Hwhy)].
  - split; [rewrite Hclass; discriminate|]. left. auto.
  - split; [discriminate|]. right. split; [reflexivity|].
    destruct Hwhy as [Hlog|[Hstats Hcount]]; [now left|right].
    split; [exact Hstats|]. now apply Z.ltb_ge.
Qed.

Lemma debug_info_fails_only_on_huge_ints_witness :
  full.handle_debug_info sample_host {[ "include_stats" := VBool false ]}
    (server_counting long_int)
  = Raise int_limit_error
  /\ 10 ^ int_max_str_digits <= Z.abs (request_count (server_counting long_int))
  /\ exists e,
       full.handle_debug_info sample_host ∅ (server_counting F64.overflow_threshold)
       = Raise e
       /\ exc_class e = OverflowError.
Proof.
  assert (Hrun : full.handle_debug_info sample_host
                   {[ "include_stats" := VBool false ]} (server_counting long_int)
                 = Raise int_limit_error).
  { rewrite full_debug_info, loggable_singleton. cbn [printable].
    replace (int_printable (request_count (server_counting long_int)))
      with false by (symmetry; exact long_int_unprintable).
    reflexivity. }
  split; [exact Hrun|]. split.
  - destruct (proj2 (debug_info_fails_only_on_huge_ints _ _ _ _ Hrun))
      as [(Hclass & _)|(_ & [Hlog|[_ Hcount]])].
    + discriminate Hclass.
    + rewrite loggable_singleton in Hlog. discriminate Hlog.
    + exact Hcount.
  - destruct (full.handle_debug_info sample_host ∅
                (server_counting F64.overflow_threshold))
      as [text|e] eqn:Hover.
    + rewrite full_debug_info in Hover. vm_compute in Hover. discriminate Hover.
    + exists e. split; [reflexivity|].
      destruct (proj2 (debug_info_fails_only_on_huge_ints _ _ _ _ Hover))
        as [(Hclass & _)|(-> & [Hlog|[Hstats _]])].
      * exact Hclass.
      * discriminate Hlog.
      * discriminate Hstats.
Defined.

(** X16. Called through the dispatcher on a server that was created with
    [name] and has served [reqs] since, [debug_info] reports that name, the
    start time taken at creation and a request count of one more than the
    requests served before; it lists the tools exactly when [include_tools]
    is true in Python's sense; and when the arguments and the count can be
    printed the text is the header followed by the serialised
    dictionary. *)
Theorem debug_info_reports_the_server (boot host : Host) (name : string)
    (reqs : list server.Request) (arguments : ArgumentMap)
    (d : list (string * json)) :
  let self := server.serve_all reqs (server.init boot name) in
  handlers.build_debug_info host arguments (server.count_request self) = Return d ->
  item d "server_name" = Some (JStr name)
  /\ item d "start_time" = Some (JStr (isoformat (now boot 0)))
  /\ item d "request_count" = Some (JInt (Z.of_nat (length reqs) + 1))
  /\ item d "tools"
     = (if py_bool (dict_get arguments "include_tools" (VBool true))
        then Some (JArr (map handlers.tool_summary tools.get_all_tools))
        else None)
  /\ (loggable arguments = true ->
      int_printable (Z.of_nat (length reqs) + 1) = true ->
      fst (full.handle_call_tool host "debug_info" arguments self)
      = Return [ server.text_content
                   (debug_header +:+ json_dumps_indent2 (JObj d)) ]).
Proof.
  cbn zeta. intros Hd.
  destruct (serve_all_fields reqs (server.init boot name)) as (Hc & Hn & Ht).
  set (self := server.serve_all reqs (server.init boot name)) in *.
  assert (Hitems :
    item d "server_name" = Some (JStr (server_name self))
    /\ item d "start_time" = Some (JStr (isoformat (start_time self)))
    /\ item d "request_count" = Some (JInt (request_count self + 1))
    /\ item d "tools"
       = (if py_bool (dict_get arguments "include_tools" (VBool true))
          then Some (JArr (map handlers.tool_summary tools.get_all_tools))
          else None)).
  { unfold handlers.build_debug_info in Hd.
    destruct (version_info host) as [[major minor] micro].
    destruct (py_bool (dict_get arguments "include_stats" (VBool true)));
      [destruct (int_truediv _ _) as [avg|e]; cbn [mbind result_bind] in Hd;
         [|discriminate]|];
      injection Hd as <-;
      destruct (py_bool (dict_get arguments "include_tools" (VBool true)));
      repeat split; reflexivity. }
  destruct Hitems as (H1 & H2 & H3 & H4).
  rewrite H1, H2, H3, H4, Hn, Ht, Hc. cbn [server.init server_name start_time
    request_count]. repeat split; try reflexivity.
  intros Hlog Hcount.
  assert (Hcount' : int_printable (request_count self + 1) = true).
  { rewrite Hc. exact Hcount. }
  rewrite (full_call_tool_routed host "debug_info" _ self server.DebugInfo
             eq_refl Hcount').
  rewrite Hlog. cbn [full.invoke].
  rewrite full_debug_info, Hlog, Hd.
  change (request_count (server.count_request self))
    with (request_count self + 1).
  now rewrite Hcount'.
Qed.

Lemma debug_info_reports_the_server_witness :
  exists d,
    handlers.build_debug_info sample_host {[ "include_tools" := VStr "" ]}
      (server.count_request
         (server.serve_all [ server.ListTools; server.ListPrompts ]
            (server.init sample_host "demo")))
    = Return d
    /\ item d "request_count" = Some (JInt 3)
    /\ item d "tools" = None
    /\ fst (full.handle_call_tool sample_host "debug_info"
              {[ "include_tools" := VStr "" ]}
              (server.serve_all [ server.ListTools; server.ListPrompts ]
                 (server.init sample_host "demo")))
       = Return [ server.text_content
                    (debug_header +:+ json_dumps_indent2 (JObj d)) ].
Proof.
  destruct (handlers.build_debug_info sample_host {[ "include_tools" := VStr "" ]}
              (server.count_request
                 (server.serve_all [ server.ListTools; server.ListPrompts ]
                    (server.init sample_host "demo"))))
    as [d|e] eqn:Hd; [|vm_compute in Hd; discriminate].
  exists d. split; [reflexivity|].
  destruct (debug_info_reports_the_server sample_host sample_host "demo"
              [ server.ListTools; server.ListPrompts ]
              {[ "include_tools" := VStr "" ]} d Hd)
    as (_ & _ & Hcount & Htools & Htext).
  split; [exact Hcount|]. split; [exact Htools|].
  apply Htext; [now rewrite loggable_singleton|].
  apply small_int_printable. reflexivity.
Defined.
